(** * master_me: the loudness-histogram side of [MasterMePlugin]

    A shallow embedding of [src/plugin/MasterMePlugin.cpp].  The plugin
    object becomes a record, every overridden method a function on that
    record, and the shared-memory segments the plugin connects to become
    an explicit store that the audio callback reads and writes.

    Conventions.
    - [uint] / [uint32_t] values are [Z] in [0, 2^32); the only operation
      of the source that can leave the range ([numFramesSoFar += frames])
      has its wrap-around written out.
    - [float] values are IEEE-754 binary32 numbers, given by the standard
      library's [spec_float] at precision 24 and maximal exponent 128.
    - [__builtin_unreachable()] and reads past the end of an audio buffer
      are undefined behaviour: [run] returns [None] there. *)

From Stdlib Require Import ZArith Lia SpecFloat.
From stdpp Require Import gmap strings list.

Local Open Scope Z_scope.

(** ** Single-precision floats *)

Abbreviation float := spec_float.

Module Float32.

Definition prec : Z := 24.
Definition emax : Z := 128.

(** [a < b] on floats: false as soon as one side is a NaN. *)
Definition ltb (a b : float) : bool := SFltb a b.

(** [std::isfinite]. *)
Definition isfinite (x : float) : bool :=
  match x with
  | S754_zero _ | S754_finite _ _ _ => true
  | S754_infinity _ | S754_nan => false
  end.

(** Conversion of an unsigned integer to [float], rounding to nearest
    with ties to even. *)
Definition of_uint (n : Z) : float := binary_normalize prec emax n 0 false.

(** The literal [0.0f]. *)
Definition zero : float := S754_zero false.

(** The literal [-70.f]: 70 = 9175040 * 2^-17 with a 24-bit mantissa. *)
Definition minus_70 : float := S754_finite true 9175040 (-17).

(** The integer a float stands for, when it is one. *)
Definition int_value (x : float) : option Z :=
  match x with
  | S754_zero _ => Some 0
  | S754_finite s m e =>
      let v := if s then Z.neg m else Z.pos m in
      if 0 <=? e then Some (v * 2 ^ e)
      else if v mod 2 ^ (- e) =? 0 then Some (v / 2 ^ (- e))
      else None
  | S754_infinity _ | S754_nan => None
  end.

End Float32.

(** [std::max<float>(a, b)] is [(a < b) ? b : a]. *)
Definition std_max (a b : float) : float := if Float32.ltb a b then b else a.

(** What a maximum of two floats is, stated without [std::max]: [m] is
    one of [a] and [b]; unless [a] is a NaN, [a <= m]; and unless one
    of them is a NaN, [b <= m]. *)
Definition is_float_max (a b m : float) : Prop :=
  (m = a \/ m = b) /\
  (a <> S754_nan -> SFleb a m = true) /\
  (a <> S754_nan -> b <> S754_nan -> SFleb b m = true).

(** [std::max<uint>(a, b)]. *)
Definition std_max_uint (a b : Z) : Z := if a <? b then b else a.

(** Reduction of an arithmetic result to [uint]. *)
Definition to_uint (z : Z) : Z := z mod 2 ^ 32.

(** ** The shared-memory payload ([utils/SharedMemory.hpp]) *)

(** Modelled from the spec: [MasterMeFloatFifo], the LoudnessRing of the
    spec, is declared in [utils/SharedMemory.hpp], which is not part of
    the sources at hand.  A ring has a fixed capacity and holds the
    samples written and not yet read, oldest first. *)
Record MasterMeFloatFifo := {
  capacity : nat;
  samples : list float
}.

(** Modelled from the spec: [MasterMeFifoControl::write] on a bound ring.
    It never fails; when the ring is full the oldest unread sample is
    overwritten. *)
Definition fifo_write (v : float) (r : MasterMeFloatFifo) : MasterMeFloatFifo :=
  let l := samples r ++ [v] in
  {| capacity := capacity r;
     samples := drop (length l - capacity r)%nat l |}.

(** The payload of one segment, with the field names the source uses
    ([fifos->lufsIn], [fifos->lufsOut], [data->closed]). *)
Record MasterMeHistogramFifos := {
  lufsIn : MasterMeFloatFifo;
  lufsOut : MasterMeFloatFifo;
  closed : bool
}.

Definition write_lufsIn (v : float) (d : MasterMeHistogramFifos) : MasterMeHistogramFifos :=
  {| lufsIn := fifo_write v (lufsIn d); lufsOut := lufsOut d; closed := closed d |}.

Definition write_lufsOut (v : float) (d : MasterMeHistogramFifos) : MasterMeHistogramFifos :=
  {| lufsIn := lufsIn d; lufsOut := fifo_write v (lufsOut d); closed := closed d |}.

(** Modelled from the spec: [signalClosed], the consumer side setting the
    [closed] flag of the segment it created.  The consumer lives in
    another process and is not part of the sources at hand. *)
Definition signalClosed (name : string) (w : gmap string MasterMeHistogramFifos)
  : gmap string MasterMeHistogramFifos :=
  alter (fun d => {| lufsIn := lufsIn d; lufsOut := lufsOut d; closed := true |}) name w.

(** Modelled from the spec: [SharedMemory<MasterMeHistogramFifos>] is
    declared in [utils/SharedMemory.hpp].  The plugin only ever connects,
    so its handle is either unattached or attached to a segment by name;
    [connect] fails when no segment of that name exists and then leaves
    the handle unattached, [close] detaches without touching the
    segment, and [getDataPointer] is the payload of the attached
    segment or null. *)
Module SharedMemory.

Definition t := option string.

Definition isCreatedOrConnected (h : t) : bool :=
  match h with Some _ => true | None => false end.

Definition close (h : t) : t := None.

Definition connect (w : gmap string MasterMeHistogramFifos) (name : string)
  : t * option MasterMeHistogramFifos :=
  match w !! name with
  | Some d => (Some name, Some d)
  | None => (None, None)
  end.

Definition getDataPointer (w : gmap string MasterMeHistogramFifos) (h : t)
  : option MasterMeHistogramFifos :=
  match h with
  | Some name => w !! name
  | None => None
  end.

End SharedMemory.

(** Modelled from the spec: [MasterMeFifoControl] is declared in
    [utils/SharedMemory.hpp].  A control is bound by [setFloatFifo] to
    one ring of a mapped payload, or to [nullptr]; the binding is kept as
    the name of the segment, the ring being fixed by the member
    ([lufsInFifo] or [lufsOutFifo]).  A write through an unbound control
    reaches no ring. *)
Module MasterMeFifoControl.

Definition t := option string.

Definition write_with (upd : float -> MasterMeHistogramFifos -> MasterMeHistogramFifos)
    (c : t) (v : float) (w : gmap string MasterMeHistogramFifos)
  : gmap string MasterMeHistogramFifos :=
  match c with
  | Some name => alter (upd v) name w
  | None => w
  end.

End MasterMeFifoControl.

(** ** The generated DSP ([Plugin.cpp], [DistrhoPluginInfo.h]) *)

(** The faustpp-generated base class and the constants of
    [DistrhoPluginInfo.h] are not part of the sources at hand; the plugin
    is written against this interface. [compute] returns the new DSP
    state and the contents of the output buffers. *)
Class FaustGeneratedPlugin := {
  Dsp : Type;
  compute : Dsp -> Z -> list float * list float -> list float * list float ->
            Dsp * (list float * list float);
  faust_getParameterValue : Dsp -> Z -> float;
  kParameterCount : Z;
  kParameter_lufs_in : Z;
  kParameter_lufs_out : Z;
  kExtraParameterHistogramBufferSize : Z;
  kMinimumHistogramBufferSize : Z
}.

(** ** The plugin *)

Section Plugin.

Context `{FaustGeneratedPlugin}.

Record MasterMePlugin := {
  dsp : Dsp;
  mode : string;
  bufferSizeForHistogram : Z;
  numFramesSoFar : Z;
  lufsInFifo : MasterMeFifoControl.t;
  lufsOutFifo : MasterMeFifoControl.t;
  histogramSharedData : SharedMemory.t;
  highestLufsInValue : float;
  highestLufsOutValue : float;
  histogramActive : bool
}.

(** Assignments to one member. *)
Definition set_dsp (p : MasterMePlugin) (d : Dsp) : MasterMePlugin :=
  {| dsp := d; mode := mode p;
     bufferSizeForHistogram := bufferSizeForHistogram p;
     numFramesSoFar := numFramesSoFar p;
     lufsInFifo := lufsInFifo p; lufsOutFifo := lufsOutFifo p;
     histogramSharedData := histogramSharedData p;
     highestLufsInValue := highestLufsInValue p;
     highestLufsOutValue := highestLufsOutValue p;
     histogramActive := histogramActive p |}.

Definition set_mode (p : MasterMePlugin) (v : string) : MasterMePlugin :=
  {| dsp := dsp p; mode := v;
     bufferSizeForHistogram := bufferSizeForHistogram p;
     numFramesSoFar := numFramesSoFar p;
     lufsInFifo := lufsInFifo p; lufsOutFifo := lufsOutFifo p;
     histogramSharedData := histogramSharedData p;
     highestLufsInValue := highestLufsInValue p;
     highestLufsOutValue := highestLufsOutValue p;
     histogramActive := histogramActive p |}.

Definition set_bufferSizeForHistogram (p : MasterMePlugin) (n : Z) : MasterMePlugin :=
  {| dsp := dsp p; mode := mode p;
     bufferSizeForHistogram := n;
     numFramesSoFar := numFramesSoFar p;
     lufsInFifo := lufsInFifo p; lufsOutFifo := lufsOutFifo p;
     histogramSharedData := histogramSharedData p;
     highestLufsInValue := highestLufsInValue p;
     highestLufsOutValue := highestLufsOutValue p;
     histogramActive := histogramActive p |}.

Definition set_numFramesSoFar (p : MasterMePlugin) (n : Z) : MasterMePlugin :=
  {| dsp := dsp p; mode := mode p;
     bufferSizeForHistogram := bufferSizeForHistogram p;
     numFramesSoFar := n;
     lufsInFifo := lufsInFifo p; lufsOutFifo := lufsOutFifo p;
     histogramSharedData := histogramSharedData p;
     highestLufsInValue := highestLufsInValue p;
     highestLufsOutValue := highestLufsOutValue p;
     histogramActive := histogramActive p |}.

Definition set_lufsInFifo (p : MasterMePlugin) (c : MasterMeFifoControl.t) : MasterMePlugin :=
  {| dsp := dsp p; mode := mode p;
     bufferSizeForHistogram := bufferSizeForHistogram p;
     numFramesSoFar := numFramesSoFar p;
     lufsInFifo := c; lufsOutFifo := lufsOutFifo p;
     histogramSharedData := histogramSharedData p;
     highestLufsInValue := highestLufsInValue p;
     highestLufsOutValue := highestLufsOutValue p;
     histogramActive := histogramActive p |}.

Definition set_lufsOutFifo (p : MasterMePlugin) (c : MasterMeFifoControl.t) : MasterMePlugin :=
  {| dsp := dsp p; mode := mode p;
     bufferSizeForHistogram := bufferSizeForHistogram p;
     numFramesSoFar := numFramesSoFar p;
     lufsInFifo := lufsInFifo p; lufsOutFifo := c;
     histogramSharedData := histogramSharedData p;
     highestLufsInValue := highestLufsInValue p;
     highestLufsOutValue := highestLufsOutValue p;
     histogramActive := histogramActive p |}.

Definition set_histogramSharedData (p : MasterMePlugin) (h : SharedMemory.t) : MasterMePlugin :=
  {| dsp := dsp p; mode := mode p;
     bufferSizeForHistogram := bufferSizeForHistogram p;
     numFramesSoFar := numFramesSoFar p;
     lufsInFifo := lufsInFifo p; lufsOutFifo := lufsOutFifo p;
     histogramSharedData := h;
     highestLufsInValue := highestLufsInValue p;
     highestLufsOutValue := highestLufsOutValue p;
     histogramActive := histogramActive p |}.

Definition set_highestLufsInValue (p : MasterMePlugin) (v : float) : MasterMePlugin :=
  {| dsp := dsp p; mode := mode p;
     bufferSizeForHistogram := bufferSizeForHistogram p;
     numFramesSoFar := numFramesSoFar p;
     lufsInFifo := lufsInFifo p; lufsOutFifo := lufsOutFifo p;
     histogramSharedData := histogramSharedData p;
     highestLufsInValue := v;
     highestLufsOutValue := highestLufsOutValue p;
     histogramActive := histogramActive p |}.

Definition set_highestLufsOutValue (p : MasterMePlugin) (v : float) : MasterMePlugin :=
  {| dsp := dsp p; mode := mode p;
     bufferSizeForHistogram := bufferSizeForHistogram p;
     numFramesSoFar := numFramesSoFar p;
     lufsInFifo := lufsInFifo p; lufsOutFifo := lufsOutFifo p;
     histogramSharedData := histogramSharedData p;
     highestLufsInValue := highestLufsInValue p;
     highestLufsOutValue := v;
     histogramActive := histogramActive p |}.

Definition set_histogramActive (p : MasterMePlugin) (b : bool) : MasterMePlugin :=
  {| dsp := dsp p; mode := mode p;
     bufferSizeForHistogram := bufferSizeForHistogram p;
     numFramesSoFar := numFramesSoFar p;
     lufsInFifo := lufsInFifo p; lufsOutFifo := lufsOutFifo p;
     histogramSharedData := histogramSharedData p;
     highestLufsInValue := highestLufsInValue p;
     highestLufsOutValue := highestLufsOutValue p;
     histogramActive := b |}.

(** The constructor with the members' default initialisers; [d] is the
    freshly built DSP and [hostBufferSize] what [getBufferSize()]
    returns. *)
Definition createPlugin (d : Dsp) (hostBufferSize : Z) : MasterMePlugin :=
  {| dsp := d;
     mode := "";
     bufferSizeForHistogram := std_max_uint kMinimumHistogramBufferSize hostBufferSize;
     numFramesSoFar := 0;
     lufsInFifo := None;
     lufsOutFifo := None;
     histogramSharedData := None;
     highestLufsInValue := Float32.minus_70;
     highestLufsOutValue := Float32.minus_70;
     histogramActive := false |}.

Definition getParameterValue (p : MasterMePlugin) (index : Z) : float :=
  if index <? kParameterCount then faust_getParameterValue (dsp p) index
  else if index - kParameterCount =? kExtraParameterHistogramBufferSize
       then Float32.of_uint (bufferSizeForHistogram p)
       else Float32.zero.

Definition getState (p : MasterMePlugin) (key : string) : string :=
  if String.eqb key "mode" then mode p else "".

Definition setState (p : MasterMePlugin) (w : gmap string MasterMeHistogramFifos)
    (key value : string) : MasterMePlugin :=
  if String.eqb key "mode" then set_mode p value
  else if String.eqb key "histogram" then
    let p :=
      if SharedMemory.isCreatedOrConnected (histogramSharedData p) then
        (* the safe assertion on [! histogramActive] only logs *)
        let p := set_lufsInFifo p None in
        let p := set_lufsOutFifo p None in
        set_histogramSharedData p (SharedMemory.close (histogramSharedData p))
      else p in
    let '(h, fifos) := SharedMemory.connect w value in
    let p := set_histogramSharedData p h in
    match fifos with
    | None => p
    | Some _ =>
        let p := set_lufsInFifo p h in
        let p := set_lufsOutFifo p h in
        set_histogramActive p true
    end
  else p.

Definition activate (p : MasterMePlugin) : MasterMePlugin :=
  set_numFramesSoFar p 0.

Definition bufferSizeChanged (p : MasterMePlugin) (newBufferSize : Z) : MasterMePlugin :=
  set_bufferSizeForHistogram p (std_max_uint kMinimumHistogramBufferSize newBufferSize).

(** *** The audio callback *)

(** [buf[i]] must be readable and finite. *)
Definition sample_finite (buf : list float) (i : nat) : bool :=
  match buf !! i with
  | Some x => Float32.isfinite x
  | None => false
  end.

(** The first loop of [run], from frame [i] on for [n] more frames:
    [false] when it reaches [__builtin_unreachable()]. *)
Fixpoint frames_finite (inputs outputs : list float * list float) (i n : nat) : bool :=
  match n with
  | O => true
  | S n' =>
      sample_finite (fst inputs) i && sample_finite (snd inputs) i &&
      sample_finite (fst outputs) i && sample_finite (snd outputs) i &&
      frames_finite inputs outputs (S i) n'
  end.

(** The condition of the flush [if], seen from the state before the
    callback. *)
Definition flush_due (p : MasterMePlugin) (frames : Z) : bool :=
  bufferSizeForHistogram p <=? to_uint (numFramesSoFar p + frames).

(** [highestLufsInValue = highestLufsOutValue = -70.f]. *)
Definition reset_peaks (p : MasterMePlugin) : MasterMePlugin :=
  let p := set_highestLufsOutValue p Float32.minus_70 in
  set_highestLufsInValue p (highestLufsOutValue p).

(** [run], after the finiteness loop. *)
Definition run_body (p : MasterMePlugin) (w : gmap string MasterMeHistogramFifos)
    (inputs outputs : list float * list float) (frames : Z)
  : MasterMePlugin * gmap string MasterMeHistogramFifos * (list float * list float) :=
  let '(d, outs) := compute (dsp p) frames inputs outputs in
  let p := set_dsp p d in
  let p := set_highestLufsInValue p
             (std_max (highestLufsInValue p)
                      (faust_getParameterValue (dsp p) kParameter_lufs_in)) in
  let p := set_highestLufsOutValue p
             (std_max (highestLufsOutValue p)
                      (faust_getParameterValue (dsp p) kParameter_lufs_out)) in
  let p := set_numFramesSoFar p (to_uint (numFramesSoFar p + frames)) in
  if bufferSizeForHistogram p <=? numFramesSoFar p then
    let p := set_numFramesSoFar p (numFramesSoFar p - bufferSizeForHistogram p) in
    if histogramActive p then
      match SharedMemory.getDataPointer w (histogramSharedData p) with
      | None =>
          (* DISTRHO_SAFE_ASSERT_RETURN leaves the callback here *)
          (p, w, outs)
      | Some data =>
          if closed data then
            (reset_peaks (set_histogramActive p false), w, outs)
          else
            let w := MasterMeFifoControl.write_with write_lufsIn
                       (lufsInFifo p) (highestLufsInValue p) w in
            let w := MasterMeFifoControl.write_with write_lufsOut
                       (lufsOutFifo p) (highestLufsOutValue p) w in
            (reset_peaks p, w, outs)
      end
    else (reset_peaks p, w, outs)
  else (p, w, outs).

Definition run (p : MasterMePlugin) (w : gmap string MasterMeHistogramFifos)
    (inputs outputs : list float * list float) (frames : Z)
  : option (MasterMePlugin * gmap string MasterMeHistogramFifos * (list float * list float)) :=
  if frames_finite inputs outputs 0 (Z.to_nat frames)
  then Some (run_body p w inputs outputs frames)
  else None.

(** What one callback observes: the DSP state after [compute] and the
    two peaks after the [std::max] updates. *)
Definition dsp_after (p : MasterMePlugin) (inputs outputs : list float * list float)
    (frames : Z) : Dsp :=
  fst (compute (dsp p) frames inputs outputs).

Definition peak_in (p : MasterMePlugin) (inputs outputs : list float * list float)
    (frames : Z) : float :=
  std_max (highestLufsInValue p)
          (faust_getParameterValue (dsp_after p inputs outputs frames) kParameter_lufs_in).

Definition peak_out (p : MasterMePlugin) (inputs outputs : list float * list float)
    (frames : Z) : float :=
  std_max (highestLufsOutValue p)
          (faust_getParameterValue (dsp_after p inputs outputs frames) kParameter_lufs_out).

(** *** Sequences of host calls *)

Inductive HostCall :=
| Activate
| Run (inputs outputs : list float * list float) (frames : Z)
| BufferSizeChanged (newBufferSize : Z)
| SetState (key value : string).

Definition host_call (c : HostCall) (s : MasterMePlugin * gmap string MasterMeHistogramFifos)
  : option (MasterMePlugin * gmap string MasterMeHistogramFifos) :=
  let '(p, w) := s in
  match c with
  | Activate => Some (activate p, w)
  | Run inputs outputs frames =>
      match run p w inputs outputs frames with
      | Some (p', w', _) => Some (p', w')
      | None => None
      end
  | BufferSizeChanged n => Some (bufferSizeChanged p n, w)
  | SetState key value => Some (setState p w key value, w)
  end.

Fixpoint host_calls (cs : list HostCall) (s : MasterMePlugin * gmap string MasterMeHistogramFifos)
  : option (MasterMePlugin * gmap string MasterMeHistogramFifos) :=
  match cs with
  | [] => Some s
  | c :: cs' =>
      match host_call c s with
      | Some s' => host_calls cs' s'
      | None => None
      end
  end.

(** A call that cannot attach the histogram channel. *)
Definition not_reconnect (c : HostCall) : Prop :=
  match c with
  | SetState key _ => key <> "histogram"
  | _ => True
  end.

(** A call that leaves the window size alone. *)
Definition not_resize (c : HostCall) : Prop :=
  match c with
  | BufferSizeChanged _ => False
  | _ => True
  end.

(** Both fifo controls point into the segment the handle is attached
    to, or all three are null. *)
Definition fifos_bound (p : MasterMePlugin) : Prop :=
  lufsInFifo p = histogramSharedData p /\ lufsOutFifo p = histogramSharedData p.

(** The precondition of [run]: every frame of the four buffers can be
    read and holds a finite sample. *)
Definition samples_finite (inputs outputs : list float * list float) (frames : Z) : Prop :=
  forall i : nat, (i < Z.to_nat frames)%nat ->
    sample_finite (fst inputs) i = true /\ sample_finite (snd inputs) i = true /\
    sample_finite (fst outputs) i = true /\ sample_finite (snd outputs) i = true.

(** The channel is suppressed: deactivated, or attached to a segment
    whose [closed] flag is set. *)
Definition channel_closed (p : MasterMePlugin) (w : gmap string MasterMeHistogramFifos) : Prop :=
  histogramActive p = false \/
  exists name data,
    histogramSharedData p = Some name /\ w !! name = Some data /\ closed data = true.

End Plugin.

(** ** A concrete configuration

    A small DSP to run the plugin on: its two loudness meters report the
    first sample of the left and of the right input channel, and the
    audio is passed through.  The window floor is 4096 frames, the host
    works in buffers of 128 frames, and the histogram buffer size is the
    first extra parameter. *)

Module Demo.

Definition meter (buf : list float) : float :=
  match buf with
  | x :: _ => x
  | [] => Float32.minus_70
  end.

Definition plugin : FaustGeneratedPlugin := {|
  Dsp := float * float;
  compute := fun _ _ inputs _ => ((meter (fst inputs), meter (snd inputs)), inputs);
  faust_getParameterValue := fun d index =>
    if index =? 0 then fst d else if index =? 1 then snd d else Float32.zero;
  kParameterCount := 2;
  kParameter_lufs_in := 0;
  kParameter_lufs_out := 1;
  kExtraParameterHistogramBufferSize := 0;
  kMinimumHistogramBufferSize := 4096
|}.

(** [-5.f], [-20.f] and [-18.f]. *)
Definition minus_5 : float := S754_finite true 10485760 (-21).
Definition minus_20 : float := S754_finite true 10485760 (-19).
Definition minus_18 : float := S754_finite true 9437184 (-19).

(** A stereo buffer of [n] frames holding [l] on the left and [r] on the
    right. *)
Definition stereo (n : nat) (l r : float) : list float * list float :=
  (replicate n l, replicate n r).

Definition silence (n : nat) : list float * list float :=
  stereo n Float32.zero Float32.zero.

(** One host callback of 128 frames at loudness [l] / [r]. *)
Definition block (l r : float) : HostCall :=
  Run (stereo 128 l r) (silence 128) 128.

Definition empty_fifo (cap : nat) : MasterMeFloatFifo :=
  {| capacity := cap; samples := [] |}.

(** One session named "demo" with rings of capacity 8, as the consumer
    creates it. *)
Definition session : gmap string MasterMeHistogramFifos :=
  {[ "demo"%string := {| lufsIn := empty_fifo 8; lufsOut := empty_fifo 8; closed := false |} ]}.

(** The plugin as constructed under a host buffer of 128 frames. *)
Definition fresh : @MasterMePlugin plugin :=
  @createPlugin plugin (Float32.minus_70, Float32.minus_70) 128.

(** The plugin attached to the session. *)
Definition attached : @MasterMePlugin plugin :=
  @setState plugin fresh session "histogram" "demo".

(** The attached plugin 31 callbacks into a window at loudness [l] /
    [r]: 3968 of the 4096 frames are in. *)
Definition primed (l r : float) : @MasterMePlugin plugin :=
  match @host_calls plugin (replicate 31 (block l r)) (attached, session) with
  | Some (p, _) => p
  | None => attached
  end.

(** Host calls that never touch the "histogram" state key: more than a
    window of loud audio, a re-activation, a mode switch, a smaller host
    buffer, and more than another window. *)
Definition calls : list HostCall :=
  replicate 40 (block minus_5 minus_5) ++
  [Activate; SetState "mode" "advanced"; BufferSizeChanged 64] ++
  replicate 40 (block minus_5 minus_5).

End Demo.

(** ** Observations on sequences of host calls *)

(** A value that fits [uint]. *)
Definition is_uint (z : Z) : Prop := 0 <= z < 2 ^ 32.

(** The host passes [uint] frame counts and buffer sizes. *)
Definition uint_arguments (c : HostCall) : Prop :=
  match c with
  | Run _ _ frames => is_uint frames
  | BufferSizeChanged n => is_uint n
  | _ => True
  end.

(** A call that does not assign the "mode" state. *)
Definition not_mode_change (c : HostCall) : Prop :=
  match c with
  | SetState key _ => key <> "mode"%string
  | _ => True
  end.

(** The frames a call hands to the plugin. *)
Definition frames_of (c : HostCall) : Z :=
  match c with
  | Run _ _ frames => frames
  | _ => 0
  end.

Definition total_frames (cs : list HostCall) : Z :=
  foldr (fun c acc => frames_of c + acc) 0 cs.

(** Streaming under a window of [B] frames: callbacks of at most [B]
    frames and state changes, no activation and no resize. *)
Definition within_window (B : Z) (c : HostCall) : Prop :=
  match c with
  | Run _ _ frames => 0 <= frames <= B
  | SetState _ _ => True
  | Activate | BufferSizeChanged _ => False
  end.

(** [-70.f <= x]; false for a NaN. *)
Definition sample_ok (x : float) : bool := SFleb Float32.minus_70 x.

Definition fifo_ok (r : MasterMeFloatFifo) : Prop :=
  Forall (fun x => sample_ok x = true) (samples r).

Definition rings_ok (w : gmap string MasterMeHistogramFifos) : Prop :=
  forall (k : string) (d : MasterMeHistogramFifos),
    w !! k = Some d -> fifo_ok (lufsIn d) /\ fifo_ok (lufsOut d).

(** What the consumer owns of a segment: its closed flag and the
    capacities of its rings. *)
Definition segment_shape (d : MasterMeHistogramFifos) : bool * nat * nat :=
  (closed d, capacity (lufsIn d), capacity (lufsOut d)).

(** ** Parameter description and presets *)

(** The members of the framework's [Parameter] that [initParameter]
    assigns; [rest] stands for the ones it leaves to the framework. *)
Module Param.

Record t (Rest : Type) := {
  hints : Z;
  name : string;
  unit : string;
  symbol : string;
  shortName : string;
  ranges_def : float;
  ranges_min : float;
  ranges_max : float;
  rest : Rest
}.

Arguments hints {Rest}.
Arguments name {Rest}.
Arguments unit {Rest}.
Arguments symbol {Rest}.
Arguments shortName {Rest}.
Arguments ranges_def {Rest}.
Arguments ranges_min {Rest}.
Arguments ranges_max {Rest}.
Arguments rest {Rest}.

End Param.

(** One entry of [kEasyPresets]. *)
Module EasyPreset.

Record t := {
  name : string;
  values : list float
}.

End EasyPreset.

(** What the plugin uses of the framework and of the generated code
    besides [FaustGeneratedPlugin]: none of it is part of the sources at
    hand.  [initDesignation_bypass] is
    [param.initDesignation(kParameterDesignationBypass)]. *)
Class DistrhoFramework `{FaustGeneratedPlugin} := {
  ParameterRest : Type;
  kParameter_global_bypass : Z;
  kParameterIsAutomatable : Z;
  kParameterIsOutput : Z;
  kParameterIsInteger : Z;
  initDesignation_bypass : Param.t ParameterRest -> Param.t ParameterRest;
  faust_initParameter : Z -> Param.t ParameterRest -> Param.t ParameterRest;
  faust_setParameterValue : Dsp -> Z -> float -> Dsp;
  kEasyPresets : list EasyPreset.t
}.

Section PluginTables.

Context `{DistrhoFramework}.

Definition initParameter (index : Z) (param : Param.t ParameterRest)
  : Param.t ParameterRest :=
  if index <? kParameterCount then
    if index =? kParameter_global_bypass
    then initDesignation_bypass param
    else faust_initParameter index param
  else if index - kParameterCount =? kExtraParameterHistogramBufferSize then
    {| Param.hints :=
         Z.lor (Z.lor kParameterIsAutomatable kParameterIsOutput) kParameterIsInteger;
       Param.name := "Histogram Buffer Size";
       Param.unit := "frames";
       Param.symbol := "histogram_buffer_size";
       Param.shortName := "HistBufSize";
       Param.ranges_def := Float32.of_uint kMinimumHistogramBufferSize;
       Param.ranges_min := Float32.of_uint kMinimumHistogramBufferSize;
       Param.ranges_max := Float32.of_uint 16384;
       Param.rest := Param.rest param |}
  else param.

(** The loop of [loadProgram] from index [i] on, over the values from
    [preset.values[i]] on. *)
Fixpoint load_values (vals : list float) (i : Z) (d : Dsp) : Dsp :=
  match vals with
  | [] => d
  | v :: vals' => load_values vals' (i + 1) (faust_setParameterValue d i v)
  end.

(** [loadProgram]; an index past the preset table is an out-of-range
    read. *)
Definition loadProgram (p : MasterMePlugin) (index : Z) : option MasterMePlugin :=
  match kEasyPresets !! Z.to_nat index with
  | Some preset => Some (set_dsp p (load_values (drop 1 (EasyPreset.values preset)) 1 (dsp p)))
  | None => None
  end.

Definition initProgramName (index : Z) : option string :=
  EasyPreset.name <$> kEasyPresets !! Z.to_nat index.

End PluginTables.

(** ** A configuration with settable parameters

    The DSP state is the table of its parameter values; three
    parameters, the first of which is the bypass. *)

Module DemoPresets.

Definition plugin : FaustGeneratedPlugin := {|
  Dsp := gmap Z float;
  compute := fun d _ inputs _ => (d, inputs);
  faust_getParameterValue := fun d index => default Float32.zero (d !! index);
  kParameterCount := 3;
  kParameter_lufs_in := 1;
  kParameter_lufs_out := 2;
  kExtraParameterHistogramBufferSize := 0;
  kMinimumHistogramBufferSize := 4096
|}.

(** Only the three parameters 0, 1 and 2 exist; setting another index
    does nothing. *)
Definition set_parameter (d : gmap Z float) (index : Z) (v : float) : gmap Z float :=
  if (0 <=? index) && (index <? 3) then <[index := v]> d else d.

Definition presets : list EasyPreset.t :=
  [ {| EasyPreset.name := "quiet";
       EasyPreset.values := [Float32.minus_70; Demo.minus_20; Demo.minus_18] |} ].

Definition framework : @DistrhoFramework plugin :=
  @Build_DistrhoFramework plugin Datatypes.unit 0 1 16 4
    (fun param => param) (fun _ param => param) set_parameter presets.

(** The plugin as constructed, no parameter set yet. *)
Definition fresh : @MasterMePlugin plugin := @createPlugin plugin ∅ 128.

(** A parameter description before [initParameter] fills it in. *)
Definition blank : Param.t Datatypes.unit :=
  {| Param.hints := 0;
     Param.name := "";
     Param.unit := "";
     Param.symbol := "";
     Param.shortName := "";
     Param.ranges_def := Float32.zero;
     Param.ranges_min := Float32.zero;
     Param.ranges_max := Float32.zero;
     Param.rest := tt |}.

End DemoPresets.

(** ** More runs of the first configuration *)

Module Scenes.

Import Demo.

(** The demo session beside a second one named "other". *)
Definition two_sessions : gmap string MasterMeHistogramFifos :=
  <["other"%string := {| lufsIn := empty_fifo 4; lufsOut := empty_fifo 4; closed := false |}]>
    session.

(** 70 callbacks of 128 frames, the plugin attaching after the 30th. *)
Definition streaming : list HostCall :=
  replicate 30 (block minus_5 minus_5) ++
  [SetState "histogram" "demo"] ++
  replicate 40 (block minus_20 minus_18).

(** Calls that store no mode. *)
Definition other_calls : list HostCall :=
  [block minus_5 minus_5; SetState "histogram" "demo"; Activate;
   BufferSizeChanged 64; SetState "histogram" "gone"; block minus_5 minus_5].

(** A plugin built under a host buffer of 16384 frames that has taken
    in 12288 frames when the host shrinks its buffer to 128 frames, and
    the window with it to 4096. *)
Definition backlog : @MasterMePlugin plugin :=
  default fresh
    (fst <$> @host_calls plugin
               (replicate 96 (block minus_5 minus_5) ++ [BufferSizeChanged 128])
               (@createPlugin plugin (Float32.minus_70, Float32.minus_70) 16384, session)).

End Scenes.

(** * Properties *)

Section Properties.

Context `{FaustGeneratedPlugin}.

Implicit Types (p : MasterMePlugin) (w : gmap string MasterMeHistogramFifos).
Implicit Types (inputs outputs : list float * list float) (frames : Z).

(** ** Basic facts *)

Lemma std_max_uint_max (a b : Z) : std_max_uint a b = Z.max a b.
Proof. unfold std_max_uint. destruct (Z.ltb_spec a b); lia. Qed.

Lemma to_uint_range (z : Z) : 0 <= to_uint z < 2 ^ 32.
Proof. unfold to_uint. apply Z.mod_pos_bound. lia. Qed.

Lemma to_uint_small (z : Z) : 0 <= z < 2 ^ 32 -> to_uint z = z.
Proof. intros Hz. unfold to_uint. apply Z.mod_small. exact Hz. Qed.

Lemma to_uint_le (z : Z) : 0 <= z -> to_uint z <= z.
Proof. intros Hz. unfold to_uint. apply Z.mod_le; lia. Qed.

Lemma run_defined p w inputs outputs frames :
  frames_finite inputs outputs 0 (Z.to_nat frames) = true ->
  run p w inputs outputs frames = Some (run_body p w inputs outputs frames).
Proof. intros Hfin. unfold run. rewrite Hfin. reflexivity. Qed.

Lemma run_inv p w inputs outputs frames r :
  run p w inputs outputs frames = Some r ->
  frames_finite inputs outputs 0 (Z.to_nat frames) = true /\
  r = run_body p w inputs outputs frames.
Proof.
  unfold run. destruct (frames_finite _ _ _ _); [|discriminate].
  intros [= <-]. split; reflexivity.
Qed.

(** Unfolds one callback down to the tests of the source. *)
Ltac open_run_body :=
  unfold run_body, peak_in, peak_out, dsp_after, flush_due, reset_peaks in *;
  destruct (compute _ _ _ _) as [? ?]; cbn in *.

(** The callback without a flush. *)
Lemma run_body_no_flush p w inputs outputs frames :
  flush_due p frames = false ->
  let '(p', w', outs) := run_body p w inputs outputs frames in
  numFramesSoFar p' = to_uint (numFramesSoFar p + frames) /\
  highestLufsInValue p' = peak_in p inputs outputs frames /\
  highestLufsOutValue p' = peak_out p inputs outputs frames /\
  histogramActive p' = histogramActive p /\
  w' = w.
Proof.
  intros Hdue. open_run_body. rewrite Hdue. cbn. repeat split; reflexivity.
Qed.

(** What no callback changes. *)
Lemma run_body_frame p w inputs outputs frames :
  let '(p', w', outs) := run_body p w inputs outputs frames in
  bufferSizeForHistogram p' = bufferSizeForHistogram p /\
  histogramSharedData p' = histogramSharedData p /\
  lufsInFifo p' = lufsInFifo p /\
  lufsOutFifo p' = lufsOutFifo p /\
  mode p' = mode p /\
  dsp p' = dsp_after p inputs outputs frames /\
  outs = snd (compute (dsp p) frames inputs outputs).
Proof.
  open_run_body.
  destruct (_ <=? _); cbn; [|repeat split; reflexivity].
  destruct (histogramActive p); cbn; [|repeat split; reflexivity].
  destruct (SharedMemory.getDataPointer _ _) as [data|]; cbn;
    [|repeat split; reflexivity].
  destruct (closed data); cbn; repeat split; reflexivity.
Qed.

(** The counter after a callback with a flush. *)
Lemma run_body_flush_counter p w inputs outputs frames :
  flush_due p frames = true ->
  numFramesSoFar (fst (fst (run_body p w inputs outputs frames))) =
  to_uint (numFramesSoFar p + frames) - bufferSizeForHistogram p.
Proof.
  intros Hdue. open_run_body. rewrite Hdue. cbn.
  destruct (histogramActive p); cbn; [|reflexivity].
  destruct (SharedMemory.getDataPointer _ _) as [data|]; cbn; [|reflexivity].
  destruct (closed data); reflexivity.
Qed.

(** ** Window size *)

(** C3: a buffer-size-change notification with any value [x] sets the
    flush threshold to [max(kMinimumHistogramBufferSize, x)], also when
    [x] is below the floor, and the constructor applies the same formula
    to the host's initial buffer size. *)
Theorem window_recompute p (x : Z) (d : Dsp) (hostBufferSize : Z) :
  bufferSizeForHistogram (bufferSizeChanged p x) = Z.max kMinimumHistogramBufferSize x /\
  bufferSizeForHistogram (createPlugin d hostBufferSize) =
    Z.max kMinimumHistogramBufferSize hostBufferSize.
Proof.
  split; cbn; apply std_max_uint_max.
Qed.

(** ** Activation *)

(** C6, as the code has it: activation zeroes the frame counter and
    leaves both peak accumulators, and every other member, as they
    were. *)
Theorem activate_zeroes_counter_only p :
  numFramesSoFar (activate p) = 0 /\
  highestLufsInValue (activate p) = highestLufsInValue p /\
  highestLufsOutValue (activate p) = highestLufsOutValue p /\
  activate p = set_numFramesSoFar p 0.
Proof. repeat split. Qed.

(** ** The frame counter *)

(** C5: a callback that flushes leaves the counter at the advanced count
    minus the flush threshold, not at zero; without 32-bit overflow that
    is the old count plus the frames processed minus the threshold, so
    the frames past the threshold open the next window. *)
Theorem flush_carries_overshoot p w inputs outputs frames :
  frames_finite inputs outputs 0 (Z.to_nat frames) = true ->
  flush_due p frames = true ->
  0 <= numFramesSoFar p -> 0 <= frames ->
  exists p' w' outs,
    run p w inputs outputs frames = Some (p', w', outs) /\
    numFramesSoFar p' = to_uint (numFramesSoFar p + frames) - bufferSizeForHistogram p /\
    (numFramesSoFar p + frames < 2 ^ 32 ->
       numFramesSoFar p' =
       numFramesSoFar p + frames - bufferSizeForHistogram p).
Proof.
  intros Hfin Hdue Hn Hf.
  destruct (run_body p w inputs outputs frames) as [[p' w'] outs] eqn:E.
  exists p', w', outs.
  pose proof (run_body_flush_counter p w inputs outputs frames Hdue) as Hc.
  rewrite E in Hc. cbn in Hc.
  split; [rewrite run_defined, E by assumption; reflexivity|].
  split; [exact Hc|].
  intros Hno. rewrite Hc, to_uint_small by lia. reflexivity.
Qed.

(** C10: when a callback brings at most one window of frames
    ([frames <= bufferSizeForHistogram]), it preserves
    [numFramesSoFar < bufferSizeForHistogram]; and a callback performs at
    most one flush: the segments are left as they were or receive one
    write through each fifo control. *)
Theorem counter_stays_below_window p w inputs outputs frames :
  frames_finite inputs outputs 0 (Z.to_nat frames) = true ->
  0 <= numFramesSoFar p < bufferSizeForHistogram p ->
  0 <= frames <= bufferSizeForHistogram p ->
  exists p' w' outs,
    run p w inputs outputs frames = Some (p', w', outs) /\
    0 <= numFramesSoFar p' < bufferSizeForHistogram p' /\
    (w' = w \/
     w' = MasterMeFifoControl.write_with write_lufsOut (lufsOutFifo p)
            (peak_out p inputs outputs frames)
            (MasterMeFifoControl.write_with write_lufsIn (lufsInFifo p)
               (peak_in p inputs outputs frames) w)).
Proof.
  intros Hfin Hn Hf. rewrite run_defined by assumption.
  pose proof (to_uint_range (numFramesSoFar p + frames)) as Hr1.
  pose proof (to_uint_le (numFramesSoFar p + frames) ltac:(lia)) as Hr2.
  open_run_body.
  destruct (Z.leb_spec (bufferSizeForHistogram p) (to_uint (numFramesSoFar p + frames)));
    cbn.
  - destruct (histogramActive p); cbn.
    + destruct (SharedMemory.getDataPointer _ _) as [data|]; cbn.
      * destruct (closed data); eexists _, _, _;
          (split; [reflexivity|]); cbn; (split; [lia|auto]).
      * eexists _, _, _. split; [reflexivity|]. cbn. split; [lia|auto].
    + eexists _, _, _. split; [reflexivity|]. cbn. split; [lia|auto].
  - eexists _, _, _. split; [reflexivity|]. cbn. split; [lia|auto].
Qed.

(** ** The finiteness precondition *)

Lemma frames_finite_spec inputs outputs (n i : nat) :
  frames_finite inputs outputs i n = true <->
  forall j : nat, (i <= j < i + n)%nat ->
    sample_finite (fst inputs) j = true /\ sample_finite (snd inputs) j = true /\
    sample_finite (fst outputs) j = true /\ sample_finite (snd outputs) j = true.
Proof.
  revert i. induction n as [|n IH]; intros i; cbn [frames_finite].
  - split; [intros _ j Hj; lia | reflexivity].
  - rewrite !andb_true_iff, IH. split.
    + intros [[[[H1 H2] H3] H4] Hrest] j Hj.
      destruct (decide (j = i)) as [->|Hne]; [tauto|].
      apply Hrest. lia.
    + intros Hall. split.
      * specialize (Hall i ltac:(lia)). tauto.
      * intros j Hj. apply Hall. lia.
Qed.

Lemma samples_finite_frames inputs outputs frames :
  samples_finite inputs outputs frames <->
  frames_finite inputs outputs 0 (Z.to_nat frames) = true.
Proof.
  rewrite frames_finite_spec. unfold samples_finite.
  split; intros Hall j Hj; apply Hall; lia.
Qed.

(** C9: the callback is defined exactly when every sample of every
    frame of the input and output buffers is finite: under that
    precondition the unreachable branch is not taken and the callback
    does what [run_body] says; with a non-finite sample its behaviour is
    undefined. *)
Theorem run_defined_iff_finite p w inputs outputs frames :
  samples_finite inputs outputs frames <->
  run p w inputs outputs frames = Some (run_body p w inputs outputs frames).
Proof.
  rewrite samples_finite_frames. unfold run.
  destruct (frames_finite inputs outputs 0 (Z.to_nat frames)).
  - split; reflexivity.
  - split; discriminate.
Qed.

(** ** Flushing *)

Lemma fifo_write_room (v : float) (r : MasterMeFloatFifo) :
  (length (samples r) < capacity r)%nat ->
  samples (fifo_write v r) = samples r ++ [v].
Proof.
  intros Hroom. unfold fifo_write. cbn. rewrite length_app. cbn.
  replace (length (samples r) + 1 - capacity r)%nat with 0%nat by lia.
  reflexivity.
Qed.

Lemma alter_alter_insert (f g : MasterMeHistogramFifos -> MasterMeHistogramFifos)
    (k : string) (data : MasterMeHistogramFifos) w :
  w !! k = Some data ->
  alter f k (alter g k w) = <[k := f (g data)]> w.
Proof.
  intros Hk. apply map_eq. intros j.
  destruct (decide (k = j)) as [<-|Hne].
  - rewrite lookup_alter_eq, lookup_alter_eq, Hk, lookup_insert_eq. reflexivity.
  - rewrite lookup_alter_ne, lookup_alter_ne, lookup_insert_ne by assumption.
    reflexivity.
Qed.

(** The order of floats is reflexive away from NaN, and comparing the
    other way round gives the opposite answer. *)
Lemma SFcompare_refl (a : float) :
  a <> S754_nan -> SFcompare a a = Some Eq.
Proof.
  destruct a as [s|s| |s m e]; intros Hnan; try congruence.
  - reflexivity.
  - destruct s; reflexivity.
  - cbn [SFcompare]. rewrite Z.compare_refl.
    change (PosDef.Pos.compare_cont Eq m m) with (Pos.compare m m).
    rewrite Pos.compare_refl. destruct s; reflexivity.
Qed.

Lemma SFcompare_antisym (a b : float) :
  SFcompare b a = option_map CompOpp (SFcompare a b).
Proof.
  destruct a as [sa|sa| |sa ma ea], b as [sb|sb| |sb mb eb];
    cbn [SFcompare option_map];
    try reflexivity; try (destruct sa; reflexivity); try (destruct sb; reflexivity);
    try (destruct sa, sb; reflexivity).
  change (PosDef.Pos.compare_cont Eq) with Pos.compare.
  rewrite (Z.compare_antisym ea eb), (Pos.compare_antisym ma mb).
  destruct sa, sb; try reflexivity;
    destruct (ea ?= eb); cbn; try reflexivity;
    destruct (ma ?= mb)%positive; reflexivity.
Qed.

Lemma SFcompare_defined (a b : float) :
  a <> S754_nan -> b <> S754_nan -> SFcompare a b <> None.
Proof.
  intros Ha Hb. destruct a, b; cbn; congruence.
Qed.

(** [std::max] on floats is a maximum. *)
Lemma std_max_is_float_max (a b : float) : is_float_max a b (std_max a b).
Proof.
  unfold is_float_max, std_max, Float32.ltb, SFltb, SFleb.
  destruct (SFcompare a b) as [[| |]|] eqn:Hc.
  - split; [auto|]. split; intros Ha.
    + rewrite SFcompare_refl by exact Ha. reflexivity.
    + intros _. rewrite SFcompare_antisym, Hc. reflexivity.
  - split; [auto|]. split; intros Ha.
    + rewrite Hc. reflexivity.
    + intros Hb. rewrite SFcompare_refl by exact Hb. reflexivity.
  - split; [auto|]. split; intros Ha.
    + rewrite SFcompare_refl by exact Ha. reflexivity.
    + intros _. rewrite SFcompare_antisym, Hc. reflexivity.
  - split; [auto|]. split; intros Ha.
    + rewrite SFcompare_refl by exact Ha. reflexivity.
    + intros Hb. destruct (SFcompare_defined a b Ha Hb Hc).
Qed.

(** C4: every defined callback takes the maximum of each peak and the
    instantaneous reading (one of the two, at least the old peak, and
    at least the reading, NaN apart) and advances the counter by the
    frames processed; when that reaches the threshold while the channel
    is active, attached and not closed, the accumulated peak is written
    once to each ring and both peaks return to -70. *)
Theorem observe_and_flush p w inputs outputs frames :
  frames_finite inputs outputs 0 (Z.to_nat frames) = true ->
  exists p' w' outs,
    run p w inputs outputs frames = Some (p', w', outs) /\
    is_float_max (highestLufsInValue p)
      (faust_getParameterValue (dsp_after p inputs outputs frames) kParameter_lufs_in)
      (peak_in p inputs outputs frames) /\
    is_float_max (highestLufsOutValue p)
      (faust_getParameterValue (dsp_after p inputs outputs frames) kParameter_lufs_out)
      (peak_out p inputs outputs frames) /\
    (if flush_due p frames
     then numFramesSoFar p' =
          to_uint (numFramesSoFar p + frames) - bufferSizeForHistogram p
     else numFramesSoFar p' = to_uint (numFramesSoFar p + frames) /\
          highestLufsInValue p' = peak_in p inputs outputs frames /\
          highestLufsOutValue p' = peak_out p inputs outputs frames /\
          w' = w) /\
    (forall name data,
       flush_due p frames = true ->
       histogramActive p = true -> fifos_bound p ->
       histogramSharedData p = Some name -> w !! name = Some data ->
       closed data = false ->
       w' = <[name := {| lufsIn := fifo_write (peak_in p inputs outputs frames) (lufsIn data);
                         lufsOut := fifo_write (peak_out p inputs outputs frames) (lufsOut data);
                         closed := false |}]> w /\
       highestLufsInValue p' = Float32.minus_70 /\
       highestLufsOutValue p' = Float32.minus_70 /\
       histogramActive p' = true).
Proof.
  intros Hfin.
  destruct (run_body p w inputs outputs frames) as [[p' w'] outs] eqn:E.
  exists p', w', outs.
  split; [rewrite run_defined, E by assumption; reflexivity|].
  split; [apply std_max_is_float_max|].
  split; [apply std_max_is_float_max|].
  split.
  - destruct (flush_due p frames) eqn:Hdue.
    + pose proof (run_body_flush_counter p w inputs outputs frames Hdue) as Hc.
      rewrite E in Hc. exact Hc.
    + pose proof (run_body_no_flush p w inputs outputs frames Hdue) as Hc.
      rewrite E in Hc. tauto.
  - intros name data Hdue Hact [Hin Hout] Hshm Hdata Hopen.
    revert E. open_run_body.
    rewrite Hdue, Hact, Hshm, Hin, Hout, Hshm. cbn. rewrite Hdata, Hopen.
    intros [= <- <- <-]. cbn.
    split; [|repeat split; assumption].
    rewrite (alter_alter_insert _ _ _ data) by assumption.
    unfold write_lufsOut, write_lufsIn. cbn. rewrite Hopen. reflexivity.
Qed.

(** C2, as the code has it: a flush that finds the channel deactivated,
    or attached to a segment marked closed, writes to no ring, leaves
    the channel deactivated, and resets both peaks to -70 as every
    completed flush does. *)
Theorem suppressed_flush_resets_peaks p w inputs outputs frames :
  frames_finite inputs outputs 0 (Z.to_nat frames) = true ->
  flush_due p frames = true ->
  channel_closed p w ->
  exists p' outs,
    run p w inputs outputs frames = Some (p', w, outs) /\
    histogramActive p' = false /\
    highestLufsInValue p' = Float32.minus_70 /\
    highestLufsOutValue p' = Float32.minus_70 /\
    numFramesSoFar p' = to_uint (numFramesSoFar p + frames) - bufferSizeForHistogram p.
Proof.
  intros Hfin Hdue Hclosed.
  rewrite run_defined by assumption.
  open_run_body. rewrite Hdue. cbn.
  destruct (histogramActive p) eqn:Hact; cbn.
  - destruct Hclosed as [Hoff | (name & data & Hshm & Hdata & Hcl)]; [congruence|].
    rewrite Hshm. cbn. rewrite Hdata, Hcl.
    eexists _, _. split; [reflexivity|]. cbn. repeat split.
  - eexists _, _. split; [reflexivity|]. cbn. repeat split. exact Hact.
Qed.

(** The one flush that keeps the peaks: the channel is active but the
    handle yields no payload, and the safe assertion returns before the
    reset. *)
Lemma flush_without_payload_keeps_peaks p w inputs outputs frames :
  flush_due p frames = true ->
  histogramActive p = true ->
  SharedMemory.getDataPointer w (histogramSharedData p) = None ->
  let '(p', w', outs) := run_body p w inputs outputs frames in
  w' = w /\
  histogramActive p' = true /\
  highestLufsInValue p' = peak_in p inputs outputs frames /\
  highestLufsOutValue p' = peak_out p inputs outputs frames.
Proof.
  intros Hdue Hact Hnull. open_run_body. rewrite Hdue, Hact. cbn.
  rewrite Hnull. cbn. repeat split; assumption.
Qed.

(** ** Closing and re-attaching the channel *)

Lemma signalClosed_lookup (name : string) w (data : MasterMeHistogramFifos) :
  w !! name = Some data ->
  signalClosed name w !! name =
    Some {| lufsIn := lufsIn data; lufsOut := lufsOut data; closed := true |}.
Proof. intros Hk. unfold signalClosed. rewrite lookup_alter_eq, Hk. reflexivity. Qed.

Lemma channel_closed_transfer p p' w :
  histogramSharedData p' = histogramSharedData p ->
  (histogramActive p = false -> histogramActive p' = false) ->
  channel_closed p w -> channel_closed p' w.
Proof.
  intros Hshm Hact [Hoff | (name & data & Hn & Hd & Hc)].
  - left. auto.
  - right. exists name, data. rewrite Hshm. auto.
Qed.

(** One callback on a suppressed channel. *)
Lemma run_body_suppressed p w inputs outputs frames :
  channel_closed p w ->
  let '(p', w', outs) := run_body p w inputs outputs frames in
  w' = w /\
  histogramSharedData p' = histogramSharedData p /\
  (histogramActive p = false -> histogramActive p' = false) /\
  (flush_due p frames = true -> histogramActive p' = false).
Proof.
  intros Hclosed. open_run_body.
  destruct (_ <=? _); cbn; [|repeat split; auto; congruence].
  destruct (histogramActive p) eqn:Hact; cbn; [|repeat split; auto].
  destruct Hclosed as [Hoff | (name & data & Hshm & Hdata & Hcl)]; [congruence|].
  rewrite Hshm. cbn. rewrite Hdata, Hcl. cbn. repeat split; auto.
Qed.

Lemma host_call_suppressed (c : HostCall) p w p' w' :
  not_reconnect c ->
  channel_closed p w ->
  host_call c (p, w) = Some (p', w') ->
  w' = w /\ channel_closed p' w /\
  (histogramActive p = false -> histogramActive p' = false).
Proof.
  intros Hc Hclosed. destruct c as [|inputs outputs frames|n|key value]; cbn.
  - intros [= <- <-]. split; [reflexivity|]. split; [|auto].
    apply (channel_closed_transfer p); auto.
  - destruct (run p w inputs outputs frames) as [[[p1 w1] outs]|] eqn:Hrun;
      [|discriminate].
    intros [= <- <-]. apply run_inv in Hrun as [_ Hr].
    pose proof (run_body_suppressed p w inputs outputs frames Hclosed) as Hs.
    rewrite <- Hr in Hs. destruct Hs as (-> & Hshm & Hoff & _).
    split; [reflexivity|]. split; [|exact Hoff].
    apply (channel_closed_transfer p); auto.
  - intros [= <- <-]. split; [reflexivity|]. split; [|auto].
    apply (channel_closed_transfer p); auto.
  - cbn in Hc. apply String.eqb_neq in Hc. unfold setState. rewrite Hc.
    intros [= <- <-]. split; [reflexivity|].
    destruct (String.eqb key "mode");
      (split; [apply (channel_closed_transfer p); auto | auto]).
Qed.

Lemma host_calls_suppressed (cs : list HostCall) p w p' w' :
  Forall not_reconnect cs ->
  channel_closed p w ->
  host_calls cs (p, w) = Some (p', w') ->
  w' = w /\ channel_closed p' w /\
  (histogramActive p = false -> histogramActive p' = false).
Proof.
  intros Hcs. revert p.
  induction Hcs as [|c cs Hc _ IH]; intros p Hclosed; cbn [host_calls].
  - intros [= <- <-]. auto.
  - destruct (host_call c (p, w)) as [[p1 w1]|] eqn:Hstep; [|discriminate].
    intros Hrest.
    destruct (host_call_suppressed c p w p1 w1 Hc Hclosed Hstep) as (-> & Hcl1 & Hoff1).
    destruct (IH p1 Hcl1 Hrest) as (-> & Hcl2 & Hoff2).
    auto.
Qed.

(** C1: once the consumer has set the closed flag of the segment the
    plugin is attached to, no sequence of host calls without a
    "histogram" state change writes to a ring; the first callback that
    reaches the flush threshold deactivates the channel, which then
    stays deactivated, still without writes; a "histogram" state change
    that finds its segment activates the channel again. *)
Theorem closed_flag_stops_writes p w0 (name : string) :
  histogramSharedData p = Some name ->
  is_Some (w0 !! name) ->
  (forall (cs : list HostCall) p1 w1,
     Forall not_reconnect cs ->
     host_calls cs (p, signalClosed name w0) = Some (p1, w1) ->
     w1 = signalClosed name w0 /\
     forall inputs outputs frames p2 w2,
       flush_due p1 frames = true ->
       host_call (Run inputs outputs frames) (p1, w1) = Some (p2, w2) ->
       histogramActive p2 = false /\ w2 = signalClosed name w0 /\
       forall (cs' : list HostCall) p3 w3,
         Forall not_reconnect cs' ->
         host_calls cs' (p2, w2) = Some (p3, w3) ->
         histogramActive p3 = false /\ w3 = signalClosed name w0) /\
  (forall p' w (value : string),
     is_Some (w !! value) ->
     histogramActive (setState p' w "histogram" value) = true).
Proof.
  intros Hshm [data Hdata].
  assert (channel_closed p (signalClosed name w0)) as Hclosed.
  { right. eexists name, _. split; [exact Hshm|].
    split; [apply signalClosed_lookup; exact Hdata | reflexivity]. }
  split.
  - intros cs p1 w1 Hcs Hrun1.
    destruct (host_calls_suppressed cs _ _ _ _ Hcs Hclosed Hrun1) as (-> & Hcl1 & _).
    split; [reflexivity|].
    intros inputs outputs frames p2 w2 Hdue Hstep.
    destruct (host_call_suppressed (Run inputs outputs frames) _ _ _ _ I Hcl1 Hstep)
      as (-> & Hcl2 & _).
    assert (histogramActive p2 = false) as Hoff2.
    { cbn in Hstep.
      destruct (run p1 _ inputs outputs frames) as [[[q wq] outs]|] eqn:Hrun;
        [|discriminate].
      injection Hstep as <- _. apply run_inv in Hrun as [_ Hr].
      pose proof (run_body_suppressed p1 _ inputs outputs frames Hcl1) as Hs.
      rewrite <- Hr in Hs. tauto. }
    split; [exact Hoff2|]. split; [reflexivity|].
    intros cs' p3 w3 Hcs' Hrun3.
    destruct (host_calls_suppressed cs' _ _ _ _ Hcs' Hcl2 Hrun3) as (-> & _ & Hoff3).
    auto.
  - intros p' w value [d Hd]. unfold setState, SharedMemory.connect. cbn.
    rewrite Hd. reflexivity.
Qed.

(** The fifo controls follow the handle through every host call. *)
Lemma createPlugin_fifos_bound (d : Dsp) (hostBufferSize : Z) :
  fifos_bound (createPlugin d hostBufferSize).
Proof. split; reflexivity. Qed.

Lemma setState_fifos_bound p w (key value : string) :
  fifos_bound p -> fifos_bound (setState p w key value).
Proof.
  intros [Hin Hout]. unfold setState, fifos_bound, SharedMemory.connect.
  destruct (String.eqb key "mode"); [cbn; auto|].
  destruct (String.eqb key "histogram"); [|auto].
  destruct (w !! value); cbn; [auto|].
  destruct (histogramSharedData p) eqn:Hshm; cbn; [auto|].
  rewrite Hin, Hout. auto.
Qed.

Lemma host_call_fifos_bound (c : HostCall) p w p' w' :
  fifos_bound p -> host_call c (p, w) = Some (p', w') -> fifos_bound p'.
Proof.
  intros Hb. destruct c as [|inputs outputs frames|n|key value]; cbn.
  - intros [= <- <-]. exact Hb.
  - destruct (run p w inputs outputs frames) as [[[p1 w1] outs]|] eqn:Hrun;
      [|discriminate].
    intros [= <- <-]. apply run_inv in Hrun as [_ Hr].
    pose proof (run_body_frame p w inputs outputs frames) as Hf.
    rewrite <- Hr in Hf. destruct Hf as (_ & Hshm & Hin & Hout & _).
    destruct Hb as [Hb1 Hb2]. unfold fifos_bound. rewrite Hshm, Hin, Hout. auto.
  - intros [= <- <-]. exact Hb.
  - intros [= <- <-]. apply setState_fifos_bound. exact Hb.
Qed.

(** C7: when the "histogram" state change cannot attach its segment and
    the channel was not active, the flag stays false, neither fifo
    control is bound and the handle is unattached; from there on, host
    calls that do not attach a segment keep the flag false and write to
    no ring, while every callback with finite buffers runs the DSP and
    returns its output. *)
Theorem failed_attach_is_inert p w (value : string) :
  fifos_bound p ->
  histogramActive p = false ->
  w !! value = None ->
  histogramActive (setState p w "histogram" value) = false /\
  lufsInFifo (setState p w "histogram" value) = None /\
  lufsOutFifo (setState p w "histogram" value) = None /\
  histogramSharedData (setState p w "histogram" value) = None /\
  (forall (cs : list HostCall) p2 w2,
     Forall not_reconnect cs ->
     host_calls cs (setState p w "histogram" value, w) = Some (p2, w2) ->
     histogramActive p2 = false /\ w2 = w) /\
  (forall inputs outputs frames,
     samples_finite inputs outputs frames ->
     exists p2,
       run (setState p w "histogram" value) w inputs outputs frames =
         Some (p2, w, snd (compute (dsp p) frames inputs outputs)) /\
       dsp p2 = fst (compute (dsp p) frames inputs outputs)).
Proof.
  intros [Hin Hout] Hoff Hnone.
  assert (histogramActive (setState p w "histogram" value) = false /\
          lufsInFifo (setState p w "histogram" value) = None /\
          lufsOutFifo (setState p w "histogram" value) = None /\
          histogramSharedData (setState p w "histogram" value) = None /\
          dsp (setState p w "histogram" value) = dsp p) as (Ha & Hi & Ho & Hs & Hd).
  { unfold setState, SharedMemory.connect. cbn. rewrite Hnone.
    destruct (histogramSharedData p) eqn:Hshm; cbn; repeat split; auto; congruence. }
  repeat (split; [assumption|]).
  assert (channel_closed (setState p w "histogram" value) w) as Hclosed
    by (left; exact Ha).
  split.
  - intros cs p2 w2 Hcs Hrun.
    destruct (host_calls_suppressed cs _ _ _ _ Hcs Hclosed Hrun) as (-> & _ & Hoff2).
    auto.
  - intros inputs outputs frames Hfin.
    apply samples_finite_frames in Hfin.
    rewrite run_defined by exact Hfin.
    pose proof (run_body_suppressed _ w inputs outputs frames Hclosed) as Hsup.
    pose proof (run_body_frame (setState p w "histogram" value) w inputs outputs frames) as Hfr.
    destruct (run_body _ w inputs outputs frames) as [[p2 w2] outs].
    destruct Hsup as (-> & _). destruct Hfr as (_ & _ & _ & _ & _ & Hdsp & ->).
    exists p2. unfold dsp_after in Hdsp. rewrite Hd in *. auto.
Qed.

(** ** The window size as an output parameter *)

Lemma digits2_pos_bounds (m : positive) :
  2 ^ (Z.pos (digits2_pos m) - 1) <= Z.pos m < 2 ^ Z.pos (digits2_pos m).
Proof.
  induction m as [m IH|m IH|]; cbn [digits2_pos].
  - rewrite Pos2Z.inj_succ.
    replace (Z.succ (Z.pos (digits2_pos m)) - 1)
      with (Z.succ (Z.pos (digits2_pos m) - 1)) by lia.
    rewrite !Z.pow_succ_r by lia. lia.
  - rewrite Pos2Z.inj_succ.
    replace (Z.succ (Z.pos (digits2_pos m)) - 1)
      with (Z.succ (Z.pos (digits2_pos m) - 1)) by lia.
    rewrite !Z.pow_succ_r by lia. lia.
  - cbn. lia.
Qed.

Lemma digits2_pos_iter_xO (m k : positive) :
  digits2_pos (Pos.iter xO m k) = (digits2_pos m + k)%positive.
Proof.
  induction k as [|k IH] using Pos.peano_ind.
  - cbn. lia.
  - rewrite Pos.iter_succ. cbn [digits2_pos]. rewrite IH. lia.
Qed.

Lemma iter_xO_pow2 (m k : positive) :
  Z.pos (Pos.iter xO m k) = Z.pos m * 2 ^ Z.pos k.
Proof.
  induction k as [|k IH] using Pos.peano_ind.
  - cbn. lia.
  - rewrite Pos.iter_succ, Pos2Z.inj_succ, Z.pow_succ_r by lia.
    rewrite Pos2Z.inj_xO, IH. lia.
Qed.

Lemma fexp_normal (e : Z) :
  -125 <= e -> fexp Float32.prec Float32.emax e = e - 24.
Proof.
  intros He. unfold fexp, emin, Float32.prec, Float32.emax.
  change (e - 24) with (Z.sub e 24). lia.
Qed.

(** A 24-bit mantissa with an exponent in range is kept as it is. *)
Lemma binary_round_aux_canonical (m : positive) (e : Z) :
  Z.pos (digits2_pos m) = 24 -> -149 <= e <= 104 ->
  binary_round_aux Float32.prec Float32.emax false (Z.pos m) e loc_Exact =
  S754_finite false m e.
Proof.
  intros Hd He.
  assert (forall l, shr_fexp Float32.prec Float32.emax (Z.pos m) e l =
                    (shr_record_of_loc (Z.pos m) l, e)) as Hshr.
  { intros l. unfold shr_fexp. cbn [Zdigits2]. rewrite Hd.
    rewrite fexp_normal by lia.
    replace (24 + e - 24 - e) with 0 by lia.
    reflexivity. }
  unfold binary_round_aux. rewrite Hshr.
  cbn [shr_record_of_loc shr_m loc_of_shr_record round_nearest_even].
  rewrite Hshr. cbn [shr_record_of_loc shr_m].
  unfold Float32.prec, Float32.emax.
  destruct (Z.leb_spec e (128 - 24)); [reflexivity|lia].
Qed.

(** Integers up to 2^24 convert to [float] without rounding. *)
Lemma of_uint_exact (n : Z) :
  0 <= n <= 2 ^ 24 -> Float32.int_value (Float32.of_uint n) = Some n.
Proof.
  intros Hn.
  destruct (Z.eq_dec n (2 ^ 24)) as [->|Hne]; [reflexivity|].
  destruct n as [|m|m]; [reflexivity| |lia].
  pose proof (digits2_pos_bounds m) as Hb.
  assert (Z.pos (digits2_pos m) <= 24) as Hd.
  { destruct (Z.le_gt_cases (Z.pos (digits2_pos m)) 24) as [|Hgt]; [assumption|].
    assert (2 ^ 24 <= 2 ^ (Z.pos (digits2_pos m) - 1))
      by (apply Z.pow_le_mono_r; lia).
    lia. }
  unfold Float32.of_uint, binary_normalize, binary_round, shl_align.
  rewrite fexp_normal by lia.
  replace (Z.pos (digits2_pos m) + 0 - 24 - 0)
    with (Z.pos (digits2_pos m) - 24) by lia.
  replace (Z.pos (digits2_pos m) + 0 - 24)
    with (Z.pos (digits2_pos m) - 24) by lia.
  destruct (Z.pos (digits2_pos m) - 24) as [|k|k] eqn:Hk; [|lia|].
  - rewrite binary_round_aux_canonical by lia.
    cbn [Float32.int_value]. cbn. f_equal. lia.
  - rewrite binary_round_aux_canonical.
    + cbn [Float32.int_value].
      destruct (Z.leb_spec 0 (Z.neg k)); [lia|].
      rewrite iter_xO_pow2. replace (- Z.neg k) with (Z.pos k) by lia.
      rewrite Z.mod_mul by lia. cbn [Z.eqb].
      rewrite Z.div_mul by lia. reflexivity.
    + rewrite digits2_pos_iter_xO. lia.
    + lia.
Qed.

(** Only [bufferSizeChanged] assigns the window size. *)
Lemma host_call_keeps_window (c : HostCall) p w p' w' :
  not_resize c -> host_call c (p, w) = Some (p', w') ->
  bufferSizeForHistogram p' = bufferSizeForHistogram p.
Proof.
  intros Hc. destruct c as [|inputs outputs frames|n|key value]; cbn.
  - intros [= <- <-]. reflexivity.
  - destruct (run p w inputs outputs frames) as [[[p1 w1] outs]|] eqn:Hrun;
      [|discriminate].
    intros [= <- <-]. apply run_inv in Hrun as [_ Hr].
    pose proof (run_body_frame p w inputs outputs frames) as Hf.
    rewrite <- Hr in Hf. tauto.
  - destruct Hc.
  - intros [= <- <-]. unfold setState, SharedMemory.connect.
    destruct (String.eqb key "mode"); [reflexivity|].
    destruct (String.eqb key "histogram"); [|reflexivity].
    destruct (w !! value); destruct (histogramSharedData p); reflexivity.
Qed.

Lemma host_calls_keep_window (cs : list HostCall) p w p' w' :
  Forall not_resize cs -> host_calls cs (p, w) = Some (p', w') ->
  bufferSizeForHistogram p' = bufferSizeForHistogram p.
Proof.
  intros Hcs. revert p w.
  induction Hcs as [|c cs Hc _ IH]; intros p w; cbn [host_calls].
  - intros [= <- <-]. reflexivity.
  - destruct (host_call c (p, w)) as [[p1 w1]|] eqn:Hstep; [|discriminate].
    intros Hrest. rewrite (IH _ _ Hrest).
    exact (host_call_keeps_window c p w p1 w1 Hc Hstep).
Qed.

Lemma getParameterValue_window p (index : Z) :
  kParameterCount <= index ->
  index - kParameterCount = kExtraParameterHistogramBufferSize ->
  getParameterValue p index = Float32.of_uint (bufferSizeForHistogram p).
Proof.
  intros Hge Hidx. unfold getParameterValue.
  destruct (Z.ltb_spec index kParameterCount); [lia|].
  rewrite Hidx, Z.eqb_refl. reflexivity.
Qed.

(** C8, as the code has it: the histogram-buffer-size parameter reads
    as the window size most recently set by the constructor or by a
    buffer-size-change notification, converted to single precision; the
    conversion is exact, so the value read is the window size itself,
    whenever that is at most 2^24 frames. *)
Theorem window_parameter_reports_size (index : Z) (cs : list HostCall) :
  kParameterCount <= index ->
  index - kParameterCount = kExtraParameterHistogramBufferSize ->
  Forall not_resize cs ->
  (forall p w (x : Z) p' w',
     host_calls cs (bufferSizeChanged p x, w) = Some (p', w') ->
     getParameterValue p' index =
       Float32.of_uint (Z.max kMinimumHistogramBufferSize x) /\
     (0 <= Z.max kMinimumHistogramBufferSize x <= 2 ^ 24 ->
      Float32.int_value (getParameterValue p' index) =
        Some (Z.max kMinimumHistogramBufferSize x))) /\
  (forall (d : Dsp) (hostBufferSize : Z) w p' w',
     host_calls cs (createPlugin d hostBufferSize, w) = Some (p', w') ->
     getParameterValue p' index =
       Float32.of_uint (Z.max kMinimumHistogramBufferSize hostBufferSize) /\
     (0 <= Z.max kMinimumHistogramBufferSize hostBufferSize <= 2 ^ 24 ->
      Float32.int_value (getParameterValue p' index) =
        Some (Z.max kMinimumHistogramBufferSize hostBufferSize))).
Proof.
  intros Hge Hidx Hcs. split.
  - intros p w x p' w' Hrun.
    rewrite (getParameterValue_window p' index Hge Hidx).
    rewrite (host_calls_keep_window cs _ _ _ _ Hcs Hrun).
    cbn. rewrite std_max_uint_max.
    split; [reflexivity | apply of_uint_exact].
  - intros d hostBufferSize w p' w' Hrun.
    rewrite (getParameterValue_window p' index Hge Hidx).
    rewrite (host_calls_keep_window cs _ _ _ _ Hcs Hrun).
    cbn. rewrite std_max_uint_max.
    split; [reflexivity | apply of_uint_exact].
Qed.

End Properties.

(** * The properties on the concrete configuration *)

Section DemoRuns.

#[local] Existing Instance Demo.plugin.

Import Demo.

Ltac by_computation := vm_compute; reflexivity.

Lemma calls_not_reconnect : Forall not_reconnect calls.
Proof.
  unfold calls. rewrite !Forall_app. split; [|split].
  - apply Forall_replicate. exact I.
  - repeat (constructor; [cbn; try exact I; discriminate|]); constructor.
  - apply Forall_replicate. exact I.
Defined.

(** The closed flag on the running demo session: the calls leave the
    segments as the consumer left them. *)
Lemma closed_flag_stops_writes_demo :
  histogramSharedData attached = Some "demo"%string /\
  is_Some (session !! "demo"%string) /\
  Forall not_reconnect calls /\
  snd <$> host_calls calls (attached, signalClosed "demo" session) =
    Some (signalClosed "demo" session).
Proof.
  assert (histogramSharedData attached = Some "demo"%string) as H1 by by_computation.
  assert (is_Some (session !! "demo"%string)) as H2 by (eexists; by_computation).
  pose proof calls_not_reconnect as H3.
  split; [exact H1|]. split; [exact H2|]. split; [exact H3|].
  assert (is_Some (host_calls calls (attached, signalClosed "demo" session)))
    as [[p1 w1] E] by (vm_compute; eexists; reflexivity).
  rewrite E. cbn [fmap option_fmap option_map snd]. f_equal.
  exact (proj1 (proj1 (closed_flag_stops_writes attached session "demo" H1 H2)
                  calls p1 w1 H3 E)).
Defined.

(** C2 fails on the code: the consumer closes the demo session 31
    callbacks into a window at -5; the callback that completes the
    window leaves the peak at -70, not at the accumulated -5. *)
Lemma suppressed_flush_loses_peaks :
  flush_due (primed minus_5 minus_5) 128 = true /\
  closed <$> signalClosed "demo" session !! "demo"%string = Some true /\
  highestLufsInValue (primed minus_5 minus_5) = minus_5 /\
  peak_in (primed minus_5 minus_5) (stereo 128 minus_5 minus_5) (silence 128) 128 =
    minus_5 /\
  (fun r => highestLufsInValue (fst (fst r))) <$>
    run (primed minus_5 minus_5) (signalClosed "demo" session)
        (stereo 128 minus_5 minus_5) (silence 128) 128 =
    Some Float32.minus_70 /\
  minus_5 <> Float32.minus_70.
Proof.
  vm_compute. do 5 (split; [reflexivity|]). intros E. discriminate E.
Qed.

Lemma suppressed_flush_resets_peaks_demo :
  frames_finite (stereo 128 minus_5 minus_5) (silence 128) 0 (Z.to_nat 128) = true /\
  flush_due (primed minus_5 minus_5) 128 = true /\
  channel_closed (primed minus_5 minus_5) (signalClosed "demo" session) /\
  exists p' outs,
    run (primed minus_5 minus_5) (signalClosed "demo" session)
        (stereo 128 minus_5 minus_5) (silence 128) 128 =
      Some (p', signalClosed "demo" session, outs) /\
    histogramActive p' = false /\
    highestLufsInValue p' = Float32.minus_70 /\
    highestLufsOutValue p' = Float32.minus_70.
Proof.
  assert (frames_finite (stereo 128 minus_5 minus_5) (silence 128) 0
            (Z.to_nat 128) = true) as H1 by by_computation.
  assert (flush_due (primed minus_5 minus_5) 128 = true) as H2 by by_computation.
  assert (channel_closed (primed minus_5 minus_5) (signalClosed "demo" session)) as H3.
  { right. eexists "demo"%string, _. split; [by_computation|].
    split; [by_computation | reflexivity]. }
  split; [exact H1|]. split; [exact H2|]. split; [exact H3|].
  destruct (suppressed_flush_resets_peaks (primed minus_5 minus_5)
              (signalClosed "demo" session)
              (stereo 128 minus_5 minus_5) (silence 128) 128 H1 H2 H3)
    as (p' & outs & Hrun & Hact & Hin & Hout & _).
  exists p', outs. auto.
Defined.

(** After 31 callbacks at -5 the callback that completes the window
    reads -20 / -18: the rings receive the accumulated -5, the larger of
    the two, not the last reading. *)
Lemma observe_and_flush_demo :
  frames_finite (stereo 128 minus_20 minus_18) (silence 128) 0 (Z.to_nat 128) = true /\
  highestLufsInValue (primed minus_5 minus_5) = minus_5 /\
  faust_getParameterValue
    (dsp_after (primed minus_5 minus_5) (stereo 128 minus_20 minus_18) (silence 128) 128)
    kParameter_lufs_in = minus_20 /\
  exists p' w' outs,
    run (primed minus_5 minus_5) session
        (stereo 128 minus_20 minus_18) (silence 128) 128 = Some (p', w', outs) /\
    SFleb minus_20 (peak_in (primed minus_5 minus_5)
                      (stereo 128 minus_20 minus_18) (silence 128) 128) = true /\
    w' = <["demo"%string :=
             {| lufsIn := fifo_write minus_5 (empty_fifo 8);
                lufsOut := fifo_write minus_5 (empty_fifo 8);
                closed := false |}]> session /\
    highestLufsInValue p' = Float32.minus_70 /\
    highestLufsOutValue p' = Float32.minus_70.
Proof.
  assert (frames_finite (stereo 128 minus_20 minus_18) (silence 128) 0
            (Z.to_nat 128) = true) as H1 by by_computation.
  split; [exact H1|]. split; [by_computation|]. split; [by_computation|].
  destruct (observe_and_flush (primed minus_5 minus_5) session
              (stereo 128 minus_20 minus_18) (silence 128) 128 H1)
    as (p' & w' & outs & Hrun & (_ & Hold & Hnew) & _ & _ & Hflush).
  exists p', w', outs. split; [exact Hrun|].
  split.
  { replace minus_20 with
      (faust_getParameterValue
         (dsp_after (primed minus_5 minus_5) (stereo 128 minus_20 minus_18)
            (silence 128) 128) kParameter_lufs_in) at 1 by by_computation.
    apply Hnew.
    - replace (highestLufsInValue (primed minus_5 minus_5)) with minus_5
        by by_computation.
      discriminate.
    - replace (faust_getParameterValue
                 (dsp_after (primed minus_5 minus_5) (stereo 128 minus_20 minus_18)
                    (silence 128) 128) kParameter_lufs_in)
        with minus_20 by by_computation.
      discriminate. }
  destruct (Hflush "demo"%string
              {| lufsIn := empty_fifo 8; lufsOut := empty_fifo 8; closed := false |})
    as (Hw & Hin & Hout & _);
    [by_computation | by_computation | split; by_computation | by_computation
    | by_computation | reflexivity |].
  split; [|split; assumption].
  rewrite Hw. by_computation.
Defined.

(** 200 frames on top of 3968 complete the 4096-frame window and leave
    72. *)
Lemma flush_carries_overshoot_demo :
  frames_finite (silence 200) (silence 200) 0 (Z.to_nat 200) = true /\
  flush_due (primed minus_5 minus_5) 200 = true /\
  0 <= numFramesSoFar (primed minus_5 minus_5) /\ 0 <= 200 /\
  exists p' w' outs,
    run (primed minus_5 minus_5) session (silence 200) (silence 200) 200 =
      Some (p', w', outs) /\
    numFramesSoFar p' = 72.
Proof.
  assert (frames_finite (silence 200) (silence 200) 0 (Z.to_nat 200) = true) as H1
    by by_computation.
  assert (flush_due (primed minus_5 minus_5) 200 = true) as H2 by by_computation.
  assert (0 <= numFramesSoFar (primed minus_5 minus_5)) as H3
    by (vm_compute; discriminate).
  assert (0 <= 200) as H4 by lia.
  split; [exact H1|]. split; [exact H2|]. split; [exact H3|]. split; [exact H4|].
  destruct (flush_carries_overshoot (primed minus_5 minus_5) session
              (silence 200) (silence 200) 200 H1 H2 H3 H4)
    as (p' & w' & outs & Hrun & Hcnt & _).
  exists p', w', outs. split; [exact Hrun|].
  rewrite Hcnt. by_computation.
Defined.

(** C6 fails on the code: one callback at -5 followed by an activation
    leaves the counter at zero and both peaks at -5. *)
Lemma activation_keeps_peaks :
  (fun s => (numFramesSoFar (fst s), highestLufsInValue (fst s),
             highestLufsOutValue (fst s))) <$>
    host_calls [block minus_5 minus_5; Activate] (fresh, session) =
    Some (0, minus_5, minus_5) /\
  minus_5 <> Float32.minus_70.
Proof.
  vm_compute. split; [reflexivity|]. intros E. discriminate E.
Qed.

(** No session named "other" exists. *)
Lemma failed_attach_is_inert_demo :
  fifos_bound fresh /\
  histogramActive fresh = false /\
  session !! "other"%string = None /\
  histogramActive (setState fresh session "histogram" "other") = false /\
  lufsInFifo (setState fresh session "histogram" "other") = None /\
  lufsOutFifo (setState fresh session "histogram" "other") = None /\
  (fun s => (histogramActive (fst s), snd s)) <$>
    host_calls calls (setState fresh session "histogram" "other", session) =
    Some (false, session).
Proof.
  assert (fifos_bound fresh) as H1 by (split; reflexivity).
  assert (histogramActive fresh = false) as H2 by reflexivity.
  assert (session !! "other"%string = None) as H3 by by_computation.
  split; [exact H1|]. split; [exact H2|]. split; [exact H3|].
  destruct (failed_attach_is_inert fresh session "other" H1 H2 H3)
    as (Ha & Hi & Ho & _ & Hcalls & _).
  split; [exact Ha|]. split; [exact Hi|]. split; [exact Ho|].
  assert (is_Some (host_calls calls (setState fresh session "histogram" "other", session)))
    as [[p2 w2] E] by (vm_compute; eexists; reflexivity).
  rewrite E. cbn [fmap option_fmap option_map fst snd].
  destruct (Hcalls calls p2 w2 calls_not_reconnect E) as [-> ->]. reflexivity.
Defined.

(** C8 fails on the code: a window of 2^24 + 1 frames reads back as
    2^24. *)
Lemma window_parameter_rounds :
  bufferSizeForHistogram (bufferSizeChanged fresh 16777217) = 16777217 /\
  Float32.int_value (getParameterValue (bufferSizeChanged fresh 16777217)
                       (kParameterCount + kExtraParameterHistogramBufferSize)) =
    Some 16777216.
Proof.
  vm_compute. split; reflexivity.
Qed.

Lemma window_parameter_reports_size_demo :
  kParameterCount <= 2 /\
  2 - kParameterCount = kExtraParameterHistogramBufferSize /\
  Forall not_resize [Activate; block minus_5 minus_5] /\
  (fun s => Float32.int_value (getParameterValue (fst s) 2)) <$>
    host_calls [Activate; block minus_5 minus_5]
      (bufferSizeChanged attached 8192, session) =
    Some (Some 8192).
Proof.
  assert (kParameterCount <= 2) as H1 by (vm_compute; discriminate).
  assert (2 - kParameterCount = kExtraParameterHistogramBufferSize) as H2
    by by_computation.
  assert (Forall not_resize [Activate; block minus_5 minus_5]) as H3
    by (constructor; [exact I|]; constructor; [exact I|]; constructor).
  split; [exact H1|]. split; [exact H2|]. split; [exact H3|].
  assert (is_Some (host_calls [Activate; block minus_5 minus_5]
                     (bufferSizeChanged attached 8192, session)))
    as [[p' w'] E] by (vm_compute; eexists; reflexivity).
  rewrite E. cbn [fmap option_fmap option_map fst]. f_equal.
  apply (proj1 (window_parameter_reports_size 2 _ H1 H2 H3) attached session 8192 p' w' E).
  vm_compute. split; discriminate.
Defined.

(** One more 128-frame callback into the fresh plugin's empty
    4096-frame window. *)
Lemma counter_stays_below_window_demo :
  frames_finite (silence 128) (silence 128) 0 (Z.to_nat 128) = true /\
  0 <= numFramesSoFar fresh < bufferSizeForHistogram fresh /\
  0 <= 128 <= bufferSizeForHistogram fresh /\
  exists p' w' outs,
    run fresh session (silence 128) (silence 128) 128 = Some (p', w', outs) /\
    0 <= numFramesSoFar p' < bufferSizeForHistogram p'.
Proof.
  assert (frames_finite (silence 128) (silence 128) 0 (Z.to_nat 128) = true) as H1
    by by_computation.
  assert (0 <= numFramesSoFar fresh < bufferSizeForHistogram fresh) as H2
    by (vm_compute; split; [discriminate | reflexivity]).
  assert (0 <= 128 <= bufferSizeForHistogram fresh) as H3
    by (vm_compute; split; discriminate).
  split; [exact H1|]. split; [exact H2|]. split; [exact H3|].
  destruct (counter_stays_below_window fresh session (silence 128) (silence 128) 128
              H1 H2 H3) as (p' & w' & outs & Hrun & Hcnt & _).
  exists p', w', outs. split; [exact Hrun | exact Hcnt].
Defined.

End DemoRuns.

(** * Further properties of the plugin *)

Section Invariants.

Context `{FaustGeneratedPlugin}.

Implicit Types (p : MasterMePlugin) (w : gmap string MasterMeHistogramFifos).
Implicit Types (inputs outputs : list float * list float) (frames : Z).
Implicit Types (c : HostCall) (cs : list HostCall).

(** Unfolds one callback down to the tests of the source. *)
Ltac open_callback :=
  unfold run_body, peak_in, peak_out, dsp_after, flush_due, reset_peaks in *;
  destruct (compute _ _ _ _) as [? ?]; cbn in *.

(** Exposes the threshold a constructor or a resize has just set. *)
Ltac window_as_max :=
  unfold bufferSizeChanged, createPlugin, set_bufferSizeForHistogram;
  cbn [bufferSizeForHistogram numFramesSoFar]; rewrite ?std_max_uint_max.

(** Splits a defined sequence of calls at its first call. *)
Lemma host_calls_cons c cs p w p' w' :
  host_calls (c :: cs) (p, w) = Some (p', w') ->
  exists p1 w1, host_call c (p, w) = Some (p1, w1) /\
                host_calls cs (p1, w1) = Some (p', w').
Proof.
  cbn [host_calls]. destruct (host_call c (p, w)) as [[p1 w1]|]; [|discriminate].
  intros Hrest. exists p1, w1. auto.
Qed.

(** An invariant of single calls holds along sequences. *)
Lemma host_calls_invariant (I : MasterMePlugin -> gmap string MasterMeHistogramFifos -> Prop)
    (ok : HostCall -> Prop) :
  (forall c p w p' w', ok c -> I p w -> host_call c (p, w) = Some (p', w') -> I p' w') ->
  forall cs p w p' w',
    Forall ok cs -> I p w -> host_calls cs (p, w) = Some (p', w') -> I p' w'.
Proof.
  intros Hstep cs. induction cs as [|c cs IH]; intros p w p' w' Hok Hinv Hrun.
  - cbn in Hrun. injection Hrun as <- <-. exact Hinv.
  - apply host_calls_cons in Hrun as (p1 & w1 & Hc & Hrest).
    inversion Hok as [|? ? Hc_ok Hcs_ok]; subst.
    exact (IH p1 w1 p' w' Hcs_ok (Hstep c p w p1 w1 Hc_ok Hinv Hc) Hrest).
Qed.

Lemma Forall_any (cs : list HostCall) : Forall (fun _ => True) cs.
Proof. induction cs; constructor; auto. Qed.

(** ** The window and the counter *)

Lemma host_call_window_floor c p w p' w' :
  kMinimumHistogramBufferSize <= bufferSizeForHistogram p ->
  host_call c (p, w) = Some (p', w') ->
  kMinimumHistogramBufferSize <= bufferSizeForHistogram p'.
Proof.
  intros Hfloor Hc.
  destruct c as [|inputs outputs frames|n|key value].
  - rewrite (host_call_keeps_window Activate p w p' w' I Hc). exact Hfloor.
  - rewrite (host_call_keeps_window (Run inputs outputs frames) p w p' w' I Hc).
    exact Hfloor.
  - cbn [host_call] in Hc. injection Hc as <- <-. window_as_max. lia.
  - rewrite (host_call_keeps_window (SetState key value) p w p' w' I Hc).
    exact Hfloor.
Qed.

(** X1: from construction on, whatever the host calls, the flush
    threshold is at least [kMinimumHistogramBufferSize]. *)
Theorem window_never_below_floor cs (d : Dsp) (hostBufferSize : Z) w p' w' :
  host_calls cs (createPlugin d hostBufferSize, w) = Some (p', w') ->
  kMinimumHistogramBufferSize <= bufferSizeForHistogram p'.
Proof.
  intros Hrun.
  apply (host_calls_invariant
           (fun p _ => kMinimumHistogramBufferSize <= bufferSizeForHistogram p)
           (fun _ => True)) with (4 := Hrun).
  - intros c p w0 p1 w1 _. apply host_call_window_floor.
  - apply Forall_any.
  - window_as_max. lia.
Qed.

Lemma host_call_uint c p w p' w' :
  uint_arguments c ->
  is_uint kMinimumHistogramBufferSize ->
  is_uint (bufferSizeForHistogram p) /\ is_uint (numFramesSoFar p) ->
  host_call c (p, w) = Some (p', w') ->
  is_uint (bufferSizeForHistogram p') /\ is_uint (numFramesSoFar p').
Proof.
  unfold is_uint. intros Harg Hmin [HB Hn].
  destruct c as [|inputs outputs frames|n|key value]; cbn [host_call].
  - intros [= <- <-]. cbn. lia.
  - destruct (run p w inputs outputs frames) as [[[p1 w1] outs]|] eqn:Hrun;
      [|discriminate].
    intros [= <- <-]. apply run_inv in Hrun as [_ Hr].
    pose proof (to_uint_range (numFramesSoFar p + frames)) as Hrange.
    revert Hr. open_callback.
    destruct (Z.leb_spec (bufferSizeForHistogram p) (to_uint (numFramesSoFar p + frames)));
      cbn.
    + destruct (histogramActive p); cbn.
      * destruct (SharedMemory.getDataPointer _ _) as [data|]; cbn;
          [destruct (closed data)|]; intros [= -> -> ->]; cbn; lia.
      * intros [= -> -> ->]; cbn; lia.
    + intros [= -> -> ->]; cbn; lia.
  - intros [= <- <-]. cbn in Harg. unfold is_uint in Harg. window_as_max. lia.
  - intros [= <- <-]. unfold setState, SharedMemory.connect.
    destruct (String.eqb key "mode"); [cbn; lia|].
    destruct (String.eqb key "histogram"); [|lia].
    destruct (w !! value); destruct (histogramSharedData p); cbn; lia.
Qed.

(** X2: when the floor, the initial buffer size and every frame count
    and buffer size the host passes fit [uint], the threshold and the
    frame counter fit [uint] after every sequence of host calls; in
    particular subtracting the threshold at a flush never wraps below
    zero. *)
Theorem counters_stay_uint cs (d : Dsp) (hostBufferSize : Z) w p' w' :
  is_uint kMinimumHistogramBufferSize ->
  is_uint hostBufferSize ->
  Forall uint_arguments cs ->
  host_calls cs (createPlugin d hostBufferSize, w) = Some (p', w') ->
  is_uint (bufferSizeForHistogram p') /\ is_uint (numFramesSoFar p').
Proof.
  intros Hmin Hhost Hcs Hrun.
  apply (host_calls_invariant
           (fun p _ => is_uint (bufferSizeForHistogram p) /\ is_uint (numFramesSoFar p))
           uint_arguments) with (4 := Hrun); [|exact Hcs|].
  - intros c p w0 p1 w1 Harg Hinv Hc.
    exact (host_call_uint c p w0 p1 w1 Harg Hmin Hinv Hc).
  - unfold is_uint in *. window_as_max. lia.
Qed.

(** ** What the plugin does to the shared segments *)

Lemma fifo_write_capacity (v : float) (r : MasterMeFloatFifo) :
  capacity (fifo_write v r) = capacity r.
Proof. reflexivity. Qed.

Lemma write_with_lookup (upd : float -> MasterMeHistogramFifos -> MasterMeHistogramFifos)
    (ctl : MasterMeFifoControl.t) (v : float) w (k : string) :
  MasterMeFifoControl.write_with upd ctl v w !! k =
  if decide (ctl = Some k) then upd v <$> w !! k else w !! k.
Proof.
  unfold MasterMeFifoControl.write_with. destruct ctl as [name|].
  - destruct (decide (name = k)) as [->|Hne].
    + rewrite decide_True by reflexivity. apply lookup_alter_eq.
    + rewrite decide_False by congruence. apply lookup_alter_ne. exact Hne.
  - rewrite decide_False by discriminate. reflexivity.
Qed.

(** The segments after one callback: untouched, or written once through
    each control. *)
Lemma run_body_world p w inputs outputs frames :
  let '(p', w', outs) := run_body p w inputs outputs frames in
  w' = w \/
  w' = MasterMeFifoControl.write_with write_lufsOut (lufsOutFifo p)
         (peak_out p inputs outputs frames)
         (MasterMeFifoControl.write_with write_lufsIn (lufsInFifo p)
            (peak_in p inputs outputs frames) w).
Proof.
  open_callback.
  destruct (_ <=? _); cbn; [|auto].
  destruct (histogramActive p); cbn; [|auto].
  destruct (SharedMemory.getDataPointer _ _) as [data|]; cbn; [|auto].
  destruct (closed data); cbn; auto.
Qed.

Lemma host_call_world c p w p' w' :
  host_call c (p, w) = Some (p', w') ->
  w' = w \/
  exists vin vout,
    w' = MasterMeFifoControl.write_with write_lufsOut (lufsOutFifo p) vout
           (MasterMeFifoControl.write_with write_lufsIn (lufsInFifo p) vin w).
Proof.
  destruct c as [|inputs outputs frames|n|key value]; cbn [host_call];
    try (intros [= <- <-]; left; reflexivity).
  destruct (run p w inputs outputs frames) as [[[p1 w1] outs]|] eqn:Hrun;
    [|discriminate].
  intros [= <- <-]. apply run_inv in Hrun as [_ Hr].
  pose proof (run_body_world p w inputs outputs frames) as Hw.
  rewrite <- Hr in Hw. destruct Hw as [->| ->]; [left; reflexivity|].
  right. eauto.
Qed.

Lemma host_call_shape c p w p' w' (k : string) :
  host_call c (p, w) = Some (p', w') ->
  segment_shape <$> w' !! k = segment_shape <$> w !! k.
Proof.
  intros Hc. destruct (host_call_world c p w p' w' Hc) as [->|(vin & vout & ->)];
    [reflexivity|].
  rewrite !write_with_lookup.
  destruct (decide (lufsOutFifo p = Some k)), (decide (lufsInFifo p = Some k));
    destruct (w !! k) as [data|]; reflexivity.
Qed.

(** X3: no sequence of host calls changes a segment's closed flag or
    the capacity of a ring, creates a segment or removes one: of the
    shared payload the plugin writes ring samples only. *)
Theorem plugin_writes_samples_only cs p w p' w' (k : string) :
  host_calls cs (p, w) = Some (p', w') ->
  segment_shape <$> w' !! k = segment_shape <$> w !! k.
Proof.
  intros Hrun.
  apply (host_calls_invariant
           (fun _ w1 => segment_shape <$> w1 !! k = segment_shape <$> w !! k)
           (fun _ => True)) with (4 := Hrun).
  - intros c p0 w0 p1 w1 _ Hinv Hc. rewrite <- Hinv.
    exact (host_call_shape c p0 w0 p1 w1 k Hc).
  - apply Forall_any.
  - reflexivity.
Qed.

Lemma host_call_keeps_handle c p w p' w' :
  not_reconnect c ->
  host_call c (p, w) = Some (p', w') ->
  histogramSharedData p' = histogramSharedData p.
Proof.
  intros Hok. destruct c as [|inputs outputs frames|n|key value]; cbn [host_call].
  - intros [= <- <-]. reflexivity.
  - destruct (run p w inputs outputs frames) as [[[p1 w1] outs]|] eqn:Hrun;
      [|discriminate].
    intros [= <- <-]. apply run_inv in Hrun as [_ Hr].
    pose proof (run_body_frame p w inputs outputs frames) as Hf.
    rewrite <- Hr in Hf. tauto.
  - intros [= <- <-]. reflexivity.
  - cbn in Hok. apply String.eqb_neq in Hok. intros [= <- <-].
    unfold setState. rewrite Hok. destruct (String.eqb key "mode"); reflexivity.
Qed.

(** X4: as long as the host does not change the "histogram" state, the
    plugin stays attached to the same segment and every other segment
    keeps its contents: samples only ever go to the attached segment. *)
Theorem writes_stay_in_attached_segment cs p w p' w' :
  fifos_bound p ->
  Forall not_reconnect cs ->
  host_calls cs (p, w) = Some (p', w') ->
  histogramSharedData p' = histogramSharedData p /\
  forall k : string, histogramSharedData p <> Some k -> w' !! k = w !! k.
Proof.
  intros Hbound Hcs Hrun.
  assert (fifos_bound p' /\ histogramSharedData p' = histogramSharedData p /\
          forall k : string, histogramSharedData p <> Some k -> w' !! k = w !! k)
    as (_ & Hh & Hw); [|auto].
  apply (host_calls_invariant
           (fun p1 w1 => fifos_bound p1 /\
                         histogramSharedData p1 = histogramSharedData p /\
                         forall k : string,
                           histogramSharedData p <> Some k -> w1 !! k = w !! k)
           not_reconnect) with (4 := Hrun); [|exact Hcs|auto].
  intros c p0 w0 p1 w1 Hok (Hb0 & Hh0 & Hw0) Hc.
  split; [exact (host_call_fifos_bound c p0 w0 p1 w1 Hb0 Hc)|].
  split; [rewrite (host_call_keeps_handle c p0 w0 p1 w1 Hok Hc); exact Hh0|].
  intros k Hk. rewrite <- (Hw0 k Hk).
  destruct (host_call_world c p0 w0 p1 w1 Hc) as [->|(vin & vout & ->)];
    [reflexivity|].
  destruct Hb0 as [Hin Hout]. rewrite !write_with_lookup, Hin, Hout, Hh0.
  rewrite !decide_False by exact Hk. reflexivity.
Qed.

(** ** The "mode" state *)

Lemma host_call_keeps_mode c p w p' w' :
  not_mode_change c ->
  host_call c (p, w) = Some (p', w') ->
  mode p' = mode p.
Proof.
  intros Hok. destruct c as [|inputs outputs frames|n|key value]; cbn [host_call].
  - intros [= <- <-]. reflexivity.
  - destruct (run p w inputs outputs frames) as [[[p1 w1] outs]|] eqn:Hrun;
      [|discriminate].
    intros [= <- <-]. apply run_inv in Hrun as [_ Hr].
    pose proof (run_body_frame p w inputs outputs frames) as Hf.
    rewrite <- Hr in Hf. tauto.
  - intros [= <- <-]. reflexivity.
  - cbn in Hok. apply String.eqb_neq in Hok. intros [= <- <-].
    unfold setState, SharedMemory.connect. rewrite Hok.
    destruct (String.eqb key "histogram"); [|reflexivity].
    destruct (w !! value); destruct (histogramSharedData p); reflexivity.
Qed.

(** X5: a value stored under the "mode" key is what [getState] returns
    for "mode" after any further host calls that do not store a mode:
    callbacks, activation, resizes and attaching or losing the
    histogram session leave it alone. *)
Theorem mode_round_trip cs p w (value : string) p' w' :
  Forall not_mode_change cs ->
  host_calls (SetState "mode" value :: cs) (p, w) = Some (p', w') ->
  getState p' "mode" = value.
Proof.
  intros Hcs Hrun.
  apply host_calls_cons in Hrun as (p1 & w1 & Hset & Hrest).
  cbn in Hset. injection Hset as <- <-.
  unfold getState. cbn.
  apply (host_calls_invariant (fun p0 _ => mode p0 = value) not_mode_change)
    with (4 := Hrest); [|exact Hcs|reflexivity].
  intros c p0 w0 p2 w2 Hok Hinv Hc.
  rewrite (host_call_keeps_mode c p0 w0 p2 w2 Hok Hc). exact Hinv.
Qed.

(** ** The cadence of flushes *)

Lemma host_call_counter_mod (B : Z) c p w p' w' :
  within_window B c ->
  bufferSizeForHistogram p = B ->
  0 <= numFramesSoFar p < B ->
  B <= 2 ^ 31 ->
  host_call c (p, w) = Some (p', w') ->
  bufferSizeForHistogram p' = B /\
  numFramesSoFar p' = (numFramesSoFar p + frames_of c) mod B.
Proof.
  intros Hok HB Hn Hsmall.
  destruct c as [|inputs outputs frames|n|key value]; cbn [host_call frames_of];
    try (destruct Hok; fail).
  - cbn in Hok.
    destruct (run p w inputs outputs frames) as [[[p1 w1] outs]|] eqn:Hrun;
      [|discriminate].
    intros [= <- <-]. apply run_inv in Hrun as [_ Hr].
    pose proof (run_body_frame p w inputs outputs frames) as Hf.
    rewrite <- Hr in Hf. destruct Hf as (HB1 & _).
    split; [congruence|].
    assert (to_uint (numFramesSoFar p + frames) = numFramesSoFar p + frames) as Hu
      by (apply to_uint_small; lia).
    destruct (flush_due p frames) eqn:Hdue.
    + pose proof (run_body_flush_counter p w inputs outputs frames Hdue) as Hc.
      rewrite <- Hr in Hc. cbn in Hc. rewrite Hc, Hu, HB.
      unfold flush_due in Hdue. rewrite Hu, HB in Hdue. apply Z.leb_le in Hdue.
      apply Z.mod_unique with (q := 1); lia.
    + pose proof (run_body_no_flush p w inputs outputs frames Hdue) as Hc.
      rewrite <- Hr in Hc. destruct Hc as (Hc & _). rewrite Hc, Hu.
      unfold flush_due in Hdue. rewrite Hu, HB in Hdue. apply Z.leb_gt in Hdue.
      symmetry. apply Z.mod_small. lia.
  - intros [= <- <-].
    assert (bufferSizeForHistogram (setState p w key value) = bufferSizeForHistogram p /\
            numFramesSoFar (setState p w key value) = numFramesSoFar p) as [-> ->].
    { unfold setState, SharedMemory.connect.
      destruct (String.eqb key "mode"); [auto|].
      destruct (String.eqb key "histogram"); [|auto].
      destruct (w !! value); destruct (histogramSharedData p); auto. }
    split; [exact HB|]. rewrite Z.add_0_r. symmetry. apply Z.mod_small. exact Hn.
Qed.

(** X7: starting from a state whose frame counter is non-negative and
    below the threshold, while the window is not resized and the plugin
    not re-activated, with callbacks of at most one window each and a
    window of at most 2^31 frames, the frame counter is the starting
    count plus the frames received since, modulo the window, however the
    frames are cut into callbacks: flushes do not drift. *)
Theorem window_does_not_drift cs p w p' w' :
  0 <= numFramesSoFar p < bufferSizeForHistogram p ->
  bufferSizeForHistogram p <= 2 ^ 31 ->
  Forall (within_window (bufferSizeForHistogram p)) cs ->
  host_calls cs (p, w) = Some (p', w') ->
  bufferSizeForHistogram p' = bufferSizeForHistogram p /\
  numFramesSoFar p' =
    (numFramesSoFar p + total_frames cs) mod bufferSizeForHistogram p.
Proof.
  remember (bufferSizeForHistogram p) as B eqn:HB. symmetry in HB.
  intros Hn Hsmall Hcs. revert p w HB Hn.
  induction Hcs as [|c cs Hc _ IH]; intros p w HB Hn Hrun.
  - cbn in Hrun. injection Hrun as <- <-. cbn.
    split; [exact HB|]. rewrite Z.add_0_r. symmetry. apply Z.mod_small. exact Hn.
  - apply host_calls_cons in Hrun as (p1 & w1 & Hstep & Hrest).
    destruct (host_call_counter_mod B c p w p1 w1 Hc HB Hn Hsmall Hstep) as [HB1 Hn1].
    assert (0 <= numFramesSoFar p1 < B) as Hn1'
      by (rewrite Hn1; apply Z.mod_pos_bound; lia).
    destruct (IH p1 w1 HB1 Hn1' Hrest) as [HB2 Hn2].
    split; [exact HB2|].
    rewrite Hn2, Hn1. cbn [total_frames foldr].
    rewrite Z.add_mod_idemp_l by lia. f_equal. unfold total_frames. lia.
Qed.

(** X8: a callback subtracts the threshold once at most.  When the
    counter reaches two thresholds or more (a callback longer than two
    windows, or a window shrunk under the counter), the counter is
    still at or above the threshold afterwards, and the next callback
    flushes again even when it brings no frames. *)
Theorem one_flush_leaves_backlog p w inputs outputs frames p' w' outs :
  0 <= bufferSizeForHistogram p ->
  2 * bufferSizeForHistogram p <= to_uint (numFramesSoFar p + frames) ->
  run p w inputs outputs frames = Some (p', w', outs) ->
  numFramesSoFar p' = to_uint (numFramesSoFar p + frames) - bufferSizeForHistogram p /\
  bufferSizeForHistogram p' <= numFramesSoFar p' /\
  flush_due p' 0 = true.
Proof.
  intros HB Hover Hrun. apply run_inv in Hrun as [_ Hr].
  pose proof (to_uint_range (numFramesSoFar p + frames)) as Hrange.
  assert (flush_due p frames = true) as Hdue
    by (unfold flush_due; apply Z.leb_le; lia).
  pose proof (run_body_flush_counter p w inputs outputs frames Hdue) as Hc.
  pose proof (run_body_frame p w inputs outputs frames) as Hf.
  rewrite <- Hr in Hc, Hf. cbn in Hc. destruct Hf as (HB1 & _).
  split; [exact Hc|]. split; [lia|].
  unfold flush_due. rewrite Z.add_0_r, to_uint_small by lia.
  apply Z.leb_le. lia.
Qed.

(** ** What reaches the rings *)

(** [std::max] does not go below a negative finite bound its first
    argument respects. *)
Lemma std_max_above (m0 : positive) (e0 : Z) (a b : float) :
  SFleb (S754_finite true m0 e0) a = true ->
  SFleb (S754_finite true m0 e0) (std_max a b) = true.
Proof.
  unfold std_max, Float32.ltb. destruct (SFltb a b) eqn:Hlt; [|auto].
  unfold SFleb, SFltb in *.
  intros Ha.
  destruct a as [sa|sa| |sa ma ea], b as [sb|sb| |sb mb eb];
    cbn [SFcompare] in *; try discriminate; try reflexivity;
    try (destruct sa; discriminate); try (destruct sb; discriminate || reflexivity);
    try (destruct sa, sb; discriminate || reflexivity).
  all: destruct sa, sb; try discriminate; try reflexivity.
  change (PosDef.Pos.compare_cont Eq) with Pos.compare in *.
  destruct (Z.compare_spec ea eb) as [He2|He2|He2]; [| discriminate |].
  - subst eb. destruct (Z.compare_spec e0 ea) as [He1|He1|He1];
      [| discriminate | reflexivity].
    destruct (Pos.compare_spec ma mb) as [Hm|Hm|Hm]; try discriminate.
    destruct (Pos.compare_spec m0 ma) as [Hm1|Hm1|Hm1]; try discriminate;
      destruct (Pos.compare_spec m0 mb) as [Hm2|Hm2|Hm2]; try reflexivity; lia.
  - destruct (Z.compare_spec e0 ea) as [He1|He1|He1]; [| discriminate |];
      destruct (Z.compare_spec e0 eb) as [He3|He3|He3]; try reflexivity; lia.
Qed.

Lemma std_max_ok (a b : float) :
  sample_ok a = true -> sample_ok (std_max a b) = true.
Proof. apply std_max_above. Qed.

Lemma fifo_write_ok (v : float) (r : MasterMeFloatFifo) :
  sample_ok v = true -> fifo_ok r -> fifo_ok (fifo_write v r).
Proof.
  unfold fifo_ok, fifo_write. cbn. intros Hv Hr.
  apply Forall_drop, Forall_app. split; [exact Hr|].
  constructor; [exact Hv|constructor].
Qed.

Lemma write_with_ok w (cin cout : MasterMeFifoControl.t) (vin vout : float) :
  sample_ok vin = true -> sample_ok vout = true -> rings_ok w ->
  rings_ok (MasterMeFifoControl.write_with write_lufsOut cout vout
              (MasterMeFifoControl.write_with write_lufsIn cin vin w)).
Proof.
  intros Hin Hout Hw k d. rewrite !write_with_lookup.
  destruct (w !! k) as [d0|] eqn:Hk;
    destruct (decide (cout = Some k)), (decide (cin = Some k)); cbn;
    try discriminate; intros [= <-]; destruct (Hw k d0 Hk) as [H1 H2]; cbn;
    auto using fifo_write_ok.
Qed.

(** The peaks after one callback. *)
Lemma run_body_peaks p w inputs outputs frames :
  let '(p', w', outs) := run_body p w inputs outputs frames in
  (highestLufsInValue p' = peak_in p inputs outputs frames \/
   highestLufsInValue p' = Float32.minus_70) /\
  (highestLufsOutValue p' = peak_out p inputs outputs frames \/
   highestLufsOutValue p' = Float32.minus_70).
Proof.
  open_callback.
  destruct (_ <=? _); cbn; [|auto].
  destruct (histogramActive p); cbn; [|auto].
  destruct (SharedMemory.getDataPointer _ _) as [data|]; cbn; [|auto].
  destruct (closed data); cbn; auto.
Qed.

Lemma host_call_samples_ok c p w p' w' :
  sample_ok (highestLufsInValue p) = true /\
  sample_ok (highestLufsOutValue p) = true /\ rings_ok w ->
  host_call c (p, w) = Some (p', w') ->
  sample_ok (highestLufsInValue p') = true /\
  sample_ok (highestLufsOutValue p') = true /\ rings_ok w'.
Proof.
  intros (Hin & Hout & Hw).
  destruct c as [|inputs outputs frames|n|key value]; cbn [host_call].
  - intros [= <- <-]. auto.
  - destruct (run p w inputs outputs frames) as [[[p1 w1] outs]|] eqn:Hrun;
      [|discriminate].
    intros [= <- <-]. apply run_inv in Hrun as [_ Hr].
    pose proof (run_body_peaks p w inputs outputs frames) as Hp.
    pose proof (run_body_world p w inputs outputs frames) as Hwd.
    rewrite <- Hr in Hp, Hwd.
    assert (sample_ok (peak_in p inputs outputs frames) = true) as Hpi
      by (apply std_max_ok; exact Hin).
    assert (sample_ok (peak_out p inputs outputs frames) = true) as Hpo
      by (apply std_max_ok; exact Hout).
    destruct Hp as [[-> | ->] [-> | ->]];
      (split; [assumption || reflexivity|]);
      (split; [assumption || reflexivity|]);
      (destruct Hwd as [-> | ->]; [exact Hw | apply write_with_ok; assumption]).
  - intros [= <- <-]. auto.
  - intros [= <- <-]. unfold setState, SharedMemory.connect.
    destruct (String.eqb key "mode"); [auto|].
    destruct (String.eqb key "histogram"); [|auto].
    destruct (w !! value); destruct (histogramSharedData p); auto.
Qed.

(** X9: whatever loudness readings the DSP reports (a NaN or minus
    infinity included), from construction on both peak accumulators are
    at least -70 and not NaN, and the plugin adds no sample below -70
    and no NaN to any ring: rings that hold only such samples keep
    holding only such samples. *)
Theorem published_samples_at_least_floor cs (d : Dsp) (hostBufferSize : Z) w p' w' :
  rings_ok w ->
  host_calls cs (createPlugin d hostBufferSize, w) = Some (p', w') ->
  sample_ok (highestLufsInValue p') = true /\
  sample_ok (highestLufsOutValue p') = true /\
  rings_ok w'.
Proof.
  intros Hw Hrun.
  apply (host_calls_invariant
           (fun p0 w0 => sample_ok (highestLufsInValue p0) = true /\
                         sample_ok (highestLufsOutValue p0) = true /\ rings_ok w0)
           (fun _ => True)) with (4 := Hrun).
  - intros c p0 w0 p1 w1 _. apply host_call_samples_ok.
  - apply Forall_any.
  - split; [reflexivity|]. split; [reflexivity | exact Hw].
Qed.

(** ** Attaching while audio is running *)

(** The flush of an active channel whose controls and handle all point
    at the open segment [k]. *)
Lemma run_body_open_flush p w inputs outputs frames (k : string)
    (data : MasterMeHistogramFifos) :
  flush_due p frames = true ->
  histogramActive p = true ->
  lufsInFifo p = Some k -> lufsOutFifo p = Some k ->
  histogramSharedData p = Some k ->
  w !! k = Some data -> closed data = false ->
  let '(p', w', outs) := run_body p w inputs outputs frames in
  w' = <[k := {| lufsIn := fifo_write (peak_in p inputs outputs frames) (lufsIn data);
                 lufsOut := fifo_write (peak_out p inputs outputs frames) (lufsOut data);
                 closed := false |}]> w /\
  histogramActive p' = true /\
  highestLufsInValue p' = Float32.minus_70 /\
  highestLufsOutValue p' = Float32.minus_70.
Proof.
  intros Hdue Hact Hin Hout Hshm Hdata Hopen. open_callback.
  rewrite Hdue, Hact, Hshm, Hin, Hout. cbn. rewrite Hdata, Hopen. cbn.
  split; [|repeat split; assumption].
  rewrite (alter_alter_insert _ _ _ data) by assumption.
  unfold write_lufsOut, write_lufsIn. cbn. rewrite Hopen. reflexivity.
Qed.

(** What a "histogram" state change does besides the channel members:
    nothing. *)
Lemma setState_histogram_frame p w (value : string) :
  dsp (setState p w "histogram" value) = dsp p /\
  numFramesSoFar (setState p w "histogram" value) = numFramesSoFar p /\
  bufferSizeForHistogram (setState p w "histogram" value) = bufferSizeForHistogram p /\
  highestLufsInValue (setState p w "histogram" value) = highestLufsInValue p /\
  highestLufsOutValue (setState p w "histogram" value) = highestLufsOutValue p.
Proof.
  unfold setState, SharedMemory.connect. cbn.
  destruct (w !! value); destruct (histogramSharedData p); cbn; auto.
Qed.

Lemma setState_histogram_callback p w (value : string) inputs outputs frames :
  flush_due (setState p w "histogram" value) frames = flush_due p frames /\
  peak_in (setState p w "histogram" value) inputs outputs frames =
    peak_in p inputs outputs frames /\
  peak_out (setState p w "histogram" value) inputs outputs frames =
    peak_out p inputs outputs frames.
Proof.
  destruct (setState_histogram_frame p w value) as (Hd & Hn & HB & Hi & Ho).
  unfold flush_due, peak_in, peak_out, dsp_after. rewrite Hd, Hn, HB, Hi, Ho. auto.
Qed.

(** X10: a "histogram" state change naming an existing, open segment
    attaches the plugin to it whatever it was attached to before, and
    touches neither the counter nor the peaks: the next callback that
    reaches the threshold writes to that segment, and what it writes
    are the peaks accumulated since the last flush, the part from
    before the attachment included. *)
Theorem attach_redirects_samples p w (value : string) (data : MasterMeHistogramFifos)
    inputs outputs frames :
  w !! value = Some data ->
  closed data = false ->
  frames_finite inputs outputs 0 (Z.to_nat frames) = true ->
  flush_due p frames = true ->
  exists p' outs,
    run (setState p w "histogram" value) w inputs outputs frames =
      Some (p',
            <[value := {| lufsIn := fifo_write (peak_in p inputs outputs frames) (lufsIn data);
                          lufsOut := fifo_write (peak_out p inputs outputs frames) (lufsOut data);
                          closed := false |}]> w,
            outs) /\
    histogramActive p' = true /\
    histogramSharedData p' = Some value.
Proof.
  intros Hdata Hopen Hfin Hdue.
  destruct (setState_histogram_callback p w value inputs outputs frames)
    as (Hdue' & Hpi & Hpo).
  assert (histogramActive (setState p w "histogram" value) = true /\
          lufsInFifo (setState p w "histogram" value) = Some value /\
          lufsOutFifo (setState p w "histogram" value) = Some value /\
          histogramSharedData (setState p w "histogram" value) = Some value)
    as (Hact & Hin & Hout & Hshm).
  { unfold setState, SharedMemory.connect. cbn. rewrite Hdata.
    destruct (histogramSharedData p); cbn; auto. }
  rewrite run_defined by exact Hfin.
  pose proof (run_body_open_flush (setState p w "histogram" value) w inputs outputs
                frames value data) as Hflush.
  pose proof (run_body_frame (setState p w "histogram" value) w inputs outputs frames)
    as Hframe.
  destruct (run_body (setState p w "histogram" value) w inputs outputs frames)
    as [[p' w'] outs].
  destruct Hflush as (Hw & Hact' & _); try assumption; [congruence|].
  destruct Hframe as (_ & Hshm' & _).
  exists p', outs. rewrite Hw, Hpi, Hpo. split; [reflexivity|].
  split; [exact Hact' | congruence].
Qed.

(** X11: when a "histogram" state change fails to attach while the
    channel is active, the channel stays flagged active without a
    payload; a callback that reaches the threshold then returns at the
    payload check: it writes nothing, keeps the flag, and leaves both
    peaks accumulating instead of resetting them. *)
Theorem failed_reattach_keeps_peaks p w (value : string) inputs outputs frames :
  histogramActive p = true ->
  w !! value = None ->
  frames_finite inputs outputs 0 (Z.to_nat frames) = true ->
  flush_due p frames = true ->
  histogramActive (setState p w "histogram" value) = true /\
  histogramSharedData (setState p w "histogram" value) = None /\
  exists p' outs,
    run (setState p w "histogram" value) w inputs outputs frames = Some (p', w, outs) /\
    histogramActive p' = true /\
    highestLufsInValue p' = peak_in p inputs outputs frames /\
    highestLufsOutValue p' = peak_out p inputs outputs frames.
Proof.
  intros Hact Hnone Hfin Hdue.
  destruct (setState_histogram_callback p w value inputs outputs frames)
    as (Hdue' & Hpi & Hpo).
  assert (histogramActive (setState p w "histogram" value) = true /\
          histogramSharedData (setState p w "histogram" value) = None)
    as (Hact1 & Hshm1).
  { unfold setState, SharedMemory.connect. cbn. rewrite Hnone.
    destruct (histogramSharedData p); cbn; auto. }
  split; [exact Hact1|]. split; [exact Hshm1|].
  rewrite run_defined by exact Hfin.
  pose proof (flush_without_payload_keeps_peaks (setState p w "histogram" value) w
                inputs outputs frames) as Hkeep.
  destruct (run_body (setState p w "histogram" value) w inputs outputs frames)
    as [[p' w'] outs].
  destruct Hkeep as (-> & Hact' & Hin' & Hout');
    [congruence | exact Hact1 | rewrite Hshm1; reflexivity |].
  exists p', outs. rewrite <- Hpi, <- Hpo. auto.
Qed.

End Invariants.

(** * Parameter description and presets *)

Section Tables.

Context `{DistrhoFramework}.

Implicit Types (p : MasterMePlugin).

(** X12: the histogram-buffer-size parameter is declared with minimum
    and default [kMinimumHistogramBufferSize] and maximum 16384, but
    its value is the window size, which is not clamped: after a
    buffer-size change to more than 16384 frames the parameter reads
    above its declared maximum. *)
Theorem parameter_exceeds_declared_maximum (index : Z) (param : Param.t ParameterRest)
    p (x : Z) :
  kParameterCount <= index ->
  index - kParameterCount = kExtraParameterHistogramBufferSize ->
  0 <= kMinimumHistogramBufferSize <= 2 ^ 24 ->
  16384 < x <= 2 ^ 24 ->
  Float32.int_value (Param.ranges_min (initParameter index param)) =
    Some kMinimumHistogramBufferSize /\
  Float32.int_value (Param.ranges_def (initParameter index param)) =
    Some kMinimumHistogramBufferSize /\
  Float32.int_value (Param.ranges_max (initParameter index param)) = Some 16384 /\
  Float32.int_value (getParameterValue (bufferSizeChanged p x) index) =
    Some (Z.max kMinimumHistogramBufferSize x) /\
  16384 < Z.max kMinimumHistogramBufferSize x.
Proof.
  intros Hge Hidx Hmin Hx.
  assert (initParameter index param =
          {| Param.hints :=
               Z.lor (Z.lor kParameterIsAutomatable kParameterIsOutput) kParameterIsInteger;
             Param.name := "Histogram Buffer Size";
             Param.unit := "frames";
             Param.symbol := "histogram_buffer_size";
             Param.shortName := "HistBufSize";
             Param.ranges_def := Float32.of_uint kMinimumHistogramBufferSize;
             Param.ranges_min := Float32.of_uint kMinimumHistogramBufferSize;
             Param.ranges_max := Float32.of_uint 16384;
             Param.rest := Param.rest param |}) as ->.
  { unfold initParameter. destruct (Z.ltb_spec index kParameterCount); [lia|].
    rewrite Hidx, Z.eqb_refl. reflexivity. }
  cbn [Param.ranges_min Param.ranges_def Param.ranges_max].
  rewrite (getParameterValue_window _ index Hge Hidx).
  unfold bufferSizeChanged, set_bufferSizeForHistogram. cbn [bufferSizeForHistogram].
  rewrite std_max_uint_max.
  repeat split; try (apply of_uint_exact; lia); lia.
Qed.

(** The parameters after the loop of [loadProgram], given that setting
    one of the loop's indexes leaves the other parameters alone;
    [settable] are the parameters that read back what they are set
    to. *)
Lemma load_values_read (settable : Z -> Prop)
    (Hsame : forall (d : Dsp) (i : Z) (v : float),
        settable i ->
        faust_getParameterValue (faust_setParameterValue d i v) i = v)
    (vals : list float) (i : Z) (d : Dsp)
    (Hother : forall (d : Dsp) (k j : Z) (v : float),
        i <= k < i + Z.of_nat (length vals) -> k <> j ->
        faust_getParameterValue (faust_setParameterValue d k v) j =
        faust_getParameterValue d j) :
  (forall j : Z, j < i \/ i + Z.of_nat (length vals) <= j ->
     faust_getParameterValue (load_values vals i d) j = faust_getParameterValue d j) /\
  (forall (n : nat) (v : float), vals !! n = Some v -> settable (i + Z.of_nat n) ->
     faust_getParameterValue (load_values vals i d) (i + Z.of_nat n) = v).
Proof.
  revert i d Hother. induction vals as [|v0 vals IH]; intros i d Hother;
    cbn [load_values].
  - split; [reflexivity|]. intros n v Hn. discriminate Hn.
  - cbn [length] in Hother.
    destruct (IH (i + 1) (faust_setParameterValue d i v0)) as [IHout IHin].
    { intros d' k j v Hk Hkj. apply Hother; lia. }
    split.
    + intros j Hj. cbn [length] in Hj.
      rewrite IHout by lia. apply Hother; lia.
    + intros [|n] v Hn Hset; cbn in Hn.
      * injection Hn as <-. rewrite Z.add_0_r in *. rewrite IHout by lia.
        apply Hsame. exact Hset.
      * replace (i + Z.of_nat (S n)) with (i + 1 + Z.of_nat n) in * by lia.
        apply IHin; assumption.
Qed.

(** X13: provided that setting one of the parameters 1 .. size-1 of
    the generated DSP leaves its other parameters alone, loading a
    preset leaves parameter 0 (whose preset value is never read), the
    parameters past the preset and every member of the plugin outside
    the DSP as they were; and every parameter from index 1 up to the
    preset's size that reads back what it is set to holds the preset's
    value afterwards. *)
Theorem loadProgram_skips_parameter_0 p (index : Z) (preset : EasyPreset.t)
    (settable : Z -> Prop) :
  (forall (d : Dsp) (i : Z) (v : float),
      settable i ->
      faust_getParameterValue (faust_setParameterValue d i v) i = v) ->
  (forall (d : Dsp) (i j : Z) (v : float),
      1 <= i < Z.of_nat (length (EasyPreset.values preset)) -> i <> j ->
      faust_getParameterValue (faust_setParameterValue d i v) j =
      faust_getParameterValue d j) ->
  kEasyPresets !! Z.to_nat index = Some preset ->
  exists p',
    loadProgram p index = Some p' /\
    set_dsp p' (dsp p) = set_dsp p (dsp p) /\
    (forall j : Z, j < 1 \/ Z.of_nat (length (EasyPreset.values preset)) <= j ->
       faust_getParameterValue (dsp p') j = faust_getParameterValue (dsp p) j) /\
    (forall (i : nat) (v : float), (1 <= i)%nat ->
       settable (Z.of_nat i) ->
       EasyPreset.values preset !! i = Some v ->
       faust_getParameterValue (dsp p') (Z.of_nat i) = v).
Proof.
  intros Hsame Hother Hpreset. unfold loadProgram. rewrite Hpreset.
  eexists. split; [reflexivity|]. split; [reflexivity|].
  cbn [dsp set_dsp].
  destruct (load_values_read settable Hsame (drop 1 (EasyPreset.values preset)) 1 (dsp p))
    as [Hout Hin].
  { intros d k j v Hk Hkj. apply Hother; [|exact Hkj].
    rewrite length_drop in Hk. lia. }
  split.
  - intros j Hj. apply Hout. rewrite length_drop. lia.
  - intros i v Hi Hset Hv.
    replace (Z.of_nat i) with (1 + Z.of_nat (i - 1)) in * by lia.
    apply Hin; [|exact Hset]. rewrite lookup_drop.
    replace (1 + (i - 1))%nat with i by lia. exact Hv.
Qed.

End Tables.

(** * The further properties on the concrete configurations *)

Section MoreDemoRuns.

#[local] Existing Instance Demo.plugin.

Import Demo Scenes.

Ltac by_computation := vm_compute; reflexivity.

(** Runs a sequence of calls and names its result. *)
Ltac run_calls p1 w1 E :=
  match goal with
  | |- context [host_calls ?cs ?s] =>
      assert (is_Some (host_calls cs s)) as [[p1 w1] E]
        by (vm_compute; eexists; reflexivity)
  end.

Lemma window_never_below_floor_demo :
  exists p' w',
    host_calls calls (fresh, session) = Some (p', w') /\
    4096 <= bufferSizeForHistogram p'.
Proof.
  run_calls p1 w1 E. exists p1, w1. split; [exact E|].
  exact (window_never_below_floor calls _ 128 session p1 w1 E).
Defined.

Lemma calls_uint_arguments : Forall uint_arguments calls.
Proof.
  unfold calls. rewrite !Forall_app. split; [|split].
  - apply Forall_replicate. cbn. unfold is_uint. lia.
  - repeat (constructor; [cbn; unfold is_uint; try exact I; lia|]); constructor.
  - apply Forall_replicate. cbn. unfold is_uint. lia.
Defined.

Lemma counters_stay_uint_demo :
  is_uint 4096 /\ is_uint 128 /\ Forall uint_arguments calls /\
  exists p' w',
    host_calls calls (fresh, session) = Some (p', w') /\
    is_uint (bufferSizeForHistogram p') /\ is_uint (numFramesSoFar p').
Proof.
  assert (is_uint 4096) as H1 by (unfold is_uint; lia).
  assert (is_uint 128) as H2 by (unfold is_uint; lia).
  split; [exact H1|]. split; [exact H2|]. split; [exact calls_uint_arguments|].
  run_calls p1 w1 E. exists p1, w1. split; [exact E|].
  exact (counters_stay_uint calls _ 128 session p1 w1 H1 H2 calls_uint_arguments E).
Defined.

Lemma plugin_writes_samples_only_demo :
  exists p' w',
    host_calls streaming (fresh, session) = Some (p', w') /\
    segment_shape <$> w' !! "demo"%string = Some (false, 8%nat, 8%nat).
Proof.
  run_calls p1 w1 E. exists p1, w1. split; [exact E|].
  rewrite (plugin_writes_samples_only streaming fresh session p1 w1 "demo" E).
  by_computation.
Defined.

Lemma writes_stay_in_attached_segment_demo :
  fifos_bound attached /\ Forall not_reconnect calls /\
  exists p' w',
    host_calls calls (attached, two_sessions) = Some (p', w') /\
    histogramSharedData p' = Some "demo"%string /\
    w' !! "other"%string = two_sessions !! "other"%string.
Proof.
  assert (fifos_bound attached) as H1 by (split; by_computation).
  split; [exact H1|]. split; [exact calls_not_reconnect|].
  run_calls p1 w1 E. exists p1, w1. split; [exact E|].
  destruct (writes_stay_in_attached_segment calls attached two_sessions p1 w1
              H1 calls_not_reconnect E) as [Hh Hw].
  split; [rewrite Hh; by_computation|].
  apply Hw. vm_compute. intros Heq. discriminate Heq.
Defined.

Lemma mode_round_trip_demo :
  Forall not_mode_change other_calls /\
  exists p' w',
    host_calls (SetState "mode" "advanced" :: other_calls) (fresh, session) =
      Some (p', w') /\
    getState p' "mode" = "advanced"%string.
Proof.
  assert (Forall not_mode_change other_calls) as H1
    by (repeat (constructor; [cbn; try exact I; discriminate|]); constructor).
  split; [exact H1|].
  run_calls p1 w1 E. exists p1, w1. split; [exact E|].
  exact (mode_round_trip other_calls fresh session "advanced" p1 w1 H1 E).
Defined.

Lemma streaming_within_window : Forall (within_window 4096) streaming.
Proof.
  unfold streaming. rewrite !Forall_app. split; [|split].
  - apply Forall_replicate. cbn. lia.
  - repeat (constructor; [cbn; try exact I; lia|]); constructor.
  - apply Forall_replicate. cbn. lia.
Defined.

(** 70 callbacks of 128 frames are 8960 frames: two windows and 768
    frames. *)
Lemma window_does_not_drift_demo :
  0 <= numFramesSoFar fresh < bufferSizeForHistogram fresh /\
  bufferSizeForHistogram fresh <= 2 ^ 31 /\
  Forall (within_window (bufferSizeForHistogram fresh)) streaming /\
  exists p' w',
    host_calls streaming (fresh, session) = Some (p', w') /\
    numFramesSoFar p' = 768.
Proof.
  assert (0 <= numFramesSoFar fresh < bufferSizeForHistogram fresh) as H1
    by (vm_compute; split; [discriminate | reflexivity]).
  assert (bufferSizeForHistogram fresh <= 2 ^ 31) as H2 by (vm_compute; discriminate).
  split; [exact H1|]. split; [exact H2|]. split; [exact streaming_within_window|].
  run_calls p1 w1 E. exists p1, w1. split; [exact E|].
  destruct (window_does_not_drift streaming fresh session p1 w1 H1 H2
              streaming_within_window E) as [_ Hn].
  rewrite Hn. by_computation.
Defined.

(** The backlog of 12288 frames under a window of 4096: one more
    callback of 128 frames flushes once and leaves 8320. *)
Lemma one_flush_leaves_backlog_demo :
  0 <= bufferSizeForHistogram backlog /\
  2 * bufferSizeForHistogram backlog <= to_uint (numFramesSoFar backlog + 128) /\
  exists p' w' outs,
    run backlog session (stereo 128 minus_5 minus_5) (silence 128) 128 =
      Some (p', w', outs) /\
    numFramesSoFar p' = 8320 /\
    flush_due p' 0 = true.
Proof.
  assert (0 <= bufferSizeForHistogram backlog) as H1 by (vm_compute; discriminate).
  assert (2 * bufferSizeForHistogram backlog <= to_uint (numFramesSoFar backlog + 128))
    as H2 by (vm_compute; discriminate).
  split; [exact H1|]. split; [exact H2|].
  assert (is_Some (run backlog session (stereo 128 minus_5 minus_5) (silence 128) 128))
    as [[[p1 w1] outs] E] by (vm_compute; eexists; reflexivity).
  exists p1, w1, outs. split; [exact E|].
  destruct (one_flush_leaves_backlog backlog session _ _ 128 p1 w1 outs H1 H2 E)
    as (Hn & _ & Hdue).
  split; [rewrite Hn; by_computation | exact Hdue].
Defined.

Lemma session_rings_ok : rings_ok session.
Proof.
  intros k d Hk. unfold session in Hk.
  apply lookup_singleton_Some in Hk as [_ <-]. split; constructor.
Defined.

Lemma published_samples_at_least_floor_demo :
  rings_ok session /\
  exists p' w',
    host_calls streaming (fresh, session) = Some (p', w') /\
    sample_ok (highestLufsInValue p') = true /\
    sample_ok (highestLufsOutValue p') = true /\
    rings_ok w'.
Proof.
  split; [exact session_rings_ok|].
  run_calls p1 w1 E. exists p1, w1. split; [exact E|].
  exact (published_samples_at_least_floor streaming _ 128 session p1 w1
           session_rings_ok E).
Defined.

(** The plugin, 31 callbacks into a window on the demo session, is
    moved to the session "other": the pair -20 / -18 lands there. *)
Lemma attach_redirects_samples_demo :
  two_sessions !! "other"%string =
    Some {| lufsIn := empty_fifo 4; lufsOut := empty_fifo 4; closed := false |} /\
  frames_finite (stereo 128 minus_20 minus_18) (silence 128) 0 (Z.to_nat 128) = true /\
  flush_due (primed minus_20 minus_18) 128 = true /\
  exists p' outs,
    run (setState (primed minus_20 minus_18) two_sessions "histogram" "other")
        two_sessions (stereo 128 minus_20 minus_18) (silence 128) 128 =
      Some (p',
            <["other"%string :=
                {| lufsIn := fifo_write minus_20 (empty_fifo 4);
                   lufsOut := fifo_write minus_18 (empty_fifo 4);
                   closed := false |}]> two_sessions,
            outs) /\
    histogramSharedData p' = Some "other"%string.
Proof.
  assert (two_sessions !! "other"%string =
            Some {| lufsIn := empty_fifo 4; lufsOut := empty_fifo 4; closed := false |})
    as H1 by by_computation.
  assert (frames_finite (stereo 128 minus_20 minus_18) (silence 128) 0
            (Z.to_nat 128) = true) as H2 by by_computation.
  assert (flush_due (primed minus_20 minus_18) 128 = true) as H3 by by_computation.
  split; [exact H1|]. split; [exact H2|]. split; [exact H3|].
  destruct (attach_redirects_samples (primed minus_20 minus_18) two_sessions "other" _
              (stereo 128 minus_20 minus_18) (silence 128) 128 H1 eq_refl H2 H3)
    as (p' & outs & Hrun & _ & Hshm).
  exists p', outs. split; [|exact Hshm].
  rewrite Hrun. do 3 f_equal.
Defined.

(** The plugin, active on the demo session, is pointed at a session
    that does not exist. *)
Lemma failed_reattach_keeps_peaks_demo :
  histogramActive (primed minus_5 minus_5) = true /\
  session !! "gone"%string = None /\
  frames_finite (stereo 128 minus_5 minus_5) (silence 128) 0 (Z.to_nat 128) = true /\
  flush_due (primed minus_5 minus_5) 128 = true /\
  exists p' outs,
    run (setState (primed minus_5 minus_5) session "histogram" "gone") session
        (stereo 128 minus_5 minus_5) (silence 128) 128 = Some (p', session, outs) /\
    histogramActive p' = true /\
    highestLufsInValue p' = minus_5.
Proof.
  assert (histogramActive (primed minus_5 minus_5) = true) as H1 by by_computation.
  assert (session !! "gone"%string = None) as H2 by by_computation.
  assert (frames_finite (stereo 128 minus_5 minus_5) (silence 128) 0
            (Z.to_nat 128) = true) as H3 by by_computation.
  assert (flush_due (primed minus_5 minus_5) 128 = true) as H4 by by_computation.
  split; [exact H1|]. split; [exact H2|]. split; [exact H3|]. split; [exact H4|].
  destruct (failed_reattach_keeps_peaks (primed minus_5 minus_5) session "gone"
              (stereo 128 minus_5 minus_5) (silence 128) 128 H1 H2 H3 H4)
    as (_ & _ & p' & outs & Hrun & Hact & Hin & _).
  exists p', outs. split; [exact Hrun|]. split; [exact Hact|].
  rewrite Hin. by_computation.
Defined.

End MoreDemoRuns.

Section PresetRuns.

#[local] Existing Instance DemoPresets.plugin.
#[local] Existing Instance DemoPresets.framework.

Import DemoPresets.

(** A host buffer of 32768 frames: the parameter reads 32768 against a
    declared maximum of 16384. *)
Lemma parameter_exceeds_declared_maximum_demo :
  kParameterCount <= 3 /\
  3 - kParameterCount = kExtraParameterHistogramBufferSize /\
  0 <= kMinimumHistogramBufferSize <= 2 ^ 24 /\
  16384 < 32768 <= 2 ^ 24 /\
  Float32.int_value (Param.ranges_max (initParameter 3 blank)) = Some 16384 /\
  Float32.int_value (getParameterValue (bufferSizeChanged fresh 32768) 3) = Some 32768.
Proof.
  assert (kParameterCount <= 3) as H1 by (vm_compute; discriminate).
  assert (3 - kParameterCount = kExtraParameterHistogramBufferSize) as H2
    by (vm_compute; reflexivity).
  assert (0 <= kMinimumHistogramBufferSize <= 2 ^ 24) as H3
    by (vm_compute; split; discriminate).
  assert (16384 < 32768 <= 2 ^ 24) as H4 by lia.
  split; [exact H1|]. split; [exact H2|]. split; [exact H3|]. split; [exact H4|].
  destruct (@parameter_exceeds_declared_maximum plugin framework 3 blank fresh 32768
              H1 H2 H3 H4)
    as (_ & _ & Hmax & Hval & _).
  split; [exact Hmax | exact Hval].
Defined.

Lemma set_parameter_same (d : gmap Z spec_float) (i : Z) (v : spec_float) :
  0 <= i < 3 ->
  default Float32.zero (set_parameter d i v !! i) = v.
Proof.
  intros Hi. unfold set_parameter.
  destruct (Z.leb_spec 0 i), (Z.ltb_spec i 3); try lia.
  cbn. rewrite lookup_insert_eq. reflexivity.
Defined.

Lemma set_parameter_other (d : gmap Z spec_float) (i j : Z) (v : spec_float) :
  i <> j ->
  default Float32.zero (set_parameter d i v !! j) = default Float32.zero (d !! j).
Proof.
  intros Hne. unfold set_parameter.
  destruct ((0 <=? i) && (i <? 3)); [|reflexivity].
  rewrite lookup_insert_ne by exact Hne. reflexivity.
Defined.

(** Loading the preset "quiet" into the fresh plugin sets parameters 1
    and 2 and leaves parameter 0 at its default. *)
Lemma loadProgram_skips_parameter_0_demo :
  kEasyPresets !! Z.to_nat 0 =
    Some {| EasyPreset.name := "quiet";
            EasyPreset.values := [Float32.minus_70; Demo.minus_20; Demo.minus_18] |} /\
  exists p',
    loadProgram fresh 0 = Some p' /\
    faust_getParameterValue (dsp p') 0 = Float32.zero /\
    faust_getParameterValue (dsp p') 1 = Demo.minus_20 /\
    faust_getParameterValue (dsp p') 2 = Demo.minus_18.
Proof.
  assert (kEasyPresets !! Z.to_nat 0 =
            Some {| EasyPreset.name := "quiet";
                    EasyPreset.values := [Float32.minus_70; Demo.minus_20; Demo.minus_18] |})
    as H1 by reflexivity.
  split; [exact H1|].
  destruct (@loadProgram_skips_parameter_0 plugin framework fresh 0 _
              (fun i => 0 <= i < 3)
              set_parameter_same
              (fun d i j v _ Hne => set_parameter_other d i j v Hne) H1)
    as (p' & Hload & _ & Hout & Hin).
  exists p'. split; [exact Hload|].
  split; [rewrite (Hout 0) by (left; lia); reflexivity|].
  split; [apply (Hin 1%nat Demo.minus_20 (le_n 1)); [lia | reflexivity]
         | apply (Hin 2%nat Demo.minus_18 (le_S 1 1 (le_n 1))); [lia | reflexivity]].
Defined.

End PresetRuns.
